(** * ESP32 OTA update task: a shallow embedding of [ota_update_task.c]

    The development follows the source file top to bottom: the firmware
    descriptor and [_versions_match], the ESP-IDF calls the task makes
    (as operations of a small state-and-halt monad that records every call
    in a trace), then [_http_cleanup], [_delete_task] and [ota_update_task]
    itself. *)

From Stdlib Require Import ZArith List Bool Lia.
From Stdlib Require Import Strings.String Strings.Byte.
Import ListNotations.

Local Open Scope Z_scope.

(** ** Firmware descriptor and the version comparator *)

Module Descriptor.

(** [esp_app_desc_t] is declared by ESP-IDF (esp_app_format.h); the task reads
    four of its [char] arrays, kept here as byte lists.  Their sizes are the
    ones of that declaration. *)
Record esp_app_desc_t : Type := {
  version : list byte;
  project_name : list byte;
  time : list byte;
  date : list byte
}.

Definition sizeof_version : nat := 32.
Definition sizeof_project_name : nat := 32.
Definition sizeof_time : nat := 16.
Definition sizeof_date : nat := 16.

(** A descriptor as it sits in memory: every array has its declared size. *)
Definition well_formed (d : esp_app_desc_t) : Prop :=
  List.length (version d) = sizeof_version /\
  List.length (project_name d) = sizeof_project_name /\
  List.length (time d) = sizeof_time /\
  List.length (date d) = sizeof_date.

Definition uchar (c : byte) : Z := Z.of_N (Byte.to_N c).

(** [strncmp] of the C library: at most [n] characters are compared, as
    [unsigned char], and the comparison stops after a NUL.  With [n] the size
    of both arrays no read leaves them; a list that is shorter than [n] reads
    as NUL from its end on. *)
Fixpoint strncmp (s1 s2 : list byte) (n : nat) : Z :=
  match n with
  | O => 0
  | S n' =>
      let c1 := hd x00 s1 in
      let c2 := hd x00 s2 in
      if negb (Byte.eqb c1 c2) then uchar c1 - uchar c2
      else if Byte.eqb c1 x00 then 0
      else strncmp (tl s1) (tl s2) n'
  end.

(** [_versions_match], with the short-circuit [&&] of the source. *)
Definition _versions_match (desc1 desc2 : esp_app_desc_t) : bool :=
  (strncmp (project_name desc1) (project_name desc2) sizeof_project_name =? 0) &&
  (strncmp (version desc1) (version desc2) sizeof_version =? 0) &&
  (strncmp (date desc1) (date desc2) sizeof_date =? 0) &&
  (strncmp (time desc1) (time desc2) sizeof_time =? 0).

(** The C string held in the first [n] bytes of an array: the bytes before
    the first NUL, all [n] of them when there is none. *)
Fixpoint c_string (n : nat) (s : list byte) : list byte :=
  match n, s with
  | S n', c :: t => if Byte.eqb c x00 then [] else c :: c_string n' t
  | _, _ => []
  end.

(** Array contents for the examples: the text, NUL-padded to [n] bytes. *)
Definition padded (n : nat) (text : list byte) : list byte :=
  firstn n (text ++ repeat x00 n).

Definition text (s : string) : list byte := list_byte_of_string s.

Definition mk_desc (name ver d t : list byte) : esp_app_desc_t :=
  {| version := padded sizeof_version ver;
     project_name := padded sizeof_project_name name;
     time := padded sizeof_time t;
     date := padded sizeof_date d |}.

End Descriptor.

(** ** The platform: ESP-IDF and FreeRTOS as the task sees them *)

Module Platform.
Import Descriptor.

(** [esp_err_t] is a 32-bit [int]; the codes are those of ESP-IDF's headers
    (esp_err.h, esp_ota_ops.h, esp_https_ota.h). *)
Definition esp_err_t : Type := Z.
Definition ESP_OK : esp_err_t := 0.
Definition ESP_FAIL : esp_err_t := -1.
Definition ESP_ERR_OTA_BASE : esp_err_t := 0x1500.
Definition ESP_ERR_OTA_VALIDATE_FAILED : esp_err_t := ESP_ERR_OTA_BASE + 0x03.
Definition ESP_ERR_HTTPS_OTA_BASE : esp_err_t := 0x9000.
Definition ESP_ERR_HTTPS_OTA_IN_PROGRESS : esp_err_t := ESP_ERR_HTTPS_OTA_BASE + 1.

(** An entry of the partition table.  The task holds pointers to entries;
    [None] is [NULL], and two pointers are equal when they point to the same
    entry. *)
Record esp_partition_t : Type := {
  label : string;
  address : Z
}.

Definition partition_ptr : Type := option esp_partition_t.

Definition partition_eqb (a b : esp_partition_t) : bool :=
  String.eqb (label a) (label b) && (address a =? address b).

Definition ptr_eqb (a b : partition_ptr) : bool :=
  match a, b with
  | None, None => true
  | Some x, Some y => partition_eqb x y
  | _, _ => false
  end.

(** [esp_https_ota_handle_t] is a [void *]: [None] is [NULL]. *)
Definition esp_https_ota_handle_t : Type := option nat.

Definition is_null {A : Type} (ptr : option A) : bool :=
  match ptr with
  | None => true
  | Some _ => false
  end.

(** A local variable of the task: declared without an initialiser it holds
    whatever the stack held, until a call writes it. *)
Inductive local (A : Type) : Type :=
| Uninitialised (junk : A)
| Initialised (v : A).
Arguments Uninitialised {A} junk.
Arguments Initialised {A} v.

Definition contents {A : Type} (x : local A) : A :=
  match x with
  | Uninitialised junk => junk
  | Initialised v => v
  end.

Definition is_set {A : Type} (x : local A) : bool :=
  match x with
  | Uninitialised _ => false
  | Initialised _ => true
  end.

(** What the environment answers to the task's calls, and how the task was
    built ([assertions_enabled]: [NDEBUG] is not defined, so that [assert]
    and [ESP_ERROR_CHECK] abort on failure). *)
Record platform : Type := {
  assertions_enabled : bool;
  boot_partition : partition_ptr;
  running_partition : partition_ptr;
  next_update_partition : partition_ptr;
  last_invalid_partition : partition_ptr;
  partition_description : partition_ptr -> esp_err_t * esp_app_desc_t;
  begin_result : esp_err_t * esp_https_ota_handle_t;
  img_desc_result : esp_err_t * esp_app_desc_t;
  perform_results : nat -> esp_err_t;
  image_len_read : nat -> Z;
  complete_data_received : bool;
  finish_result : esp_err_t;
  new_app_info_junk : esp_app_desc_t;
  running_app_info_junk : esp_app_desc_t;
  invalid_app_info_junk : esp_app_desc_t
}.

Inductive esp_log_level_t : Type := ESP_LOG_ERROR | ESP_LOG_WARN | ESP_LOG_INFO.

(** Everything the task does that is visible outside it, one event per call,
    named after the function called.  [ev_log] keeps the level and the format
    string; [ev_versions_match] records a call of the comparator with the two
    locals it was given. *)
Inductive event : Type :=
| ev_log (level : esp_log_level_t) (format : string)
| ev_esp_ota_get_boot_partition
| ev_esp_ota_get_running_partition
| ev_esp_ota_get_next_update_partition
| ev_esp_ota_get_last_invalid_partition
| ev_esp_ota_get_partition_description (part : partition_ptr)
| ev_esp_https_ota_begin
| ev_esp_https_ota_get_img_desc
| ev_esp_https_ota_perform
| ev_esp_https_ota_get_image_len_read
| ev_esp_https_ota_is_complete_data_received
| ev_esp_https_ota_finish
| ev_esp_https_ota_abort (handle : esp_https_ota_handle_t)
| ev_versions_match (desc1 desc2 : local esp_app_desc_t)
| ev_vTaskDelete
| ev_vTaskDelay
| ev_esp_restart
| ev_abort
| ev_null_dereference.

(** How control leaves the task. *)
Inductive terminal : Type :=
| TaskDeleted   (* vTaskDelete(NULL) *)
| Restarted     (* esp_restart() *)
| Panicked.     (* abort() of a failed assert or ESP_ERROR_CHECK, or a load through NULL *)

Record state : Type := {
  performs : nat;          (* calls of esp_https_ota_perform so far *)
  trace : list event       (* oldest first *)
}.

Definition initial_state : state := {| performs := 0; trace := [] |}.

(** A computation either goes on with a value, or control has left the task
    for good, or the model's loop bound was reached. *)
Inductive result (A : Type) : Type :=
| Ret (a : A) (s : state)
| Halt (t : terminal) (s : state)
| OutOfFuel (s : state).
Arguments Ret {A} a s.
Arguments Halt {A} t s.
Arguments OutOfFuel {A} s.

Definition M (A : Type) : Type := state -> result A.

Definition ret {A : Type} (a : A) : M A := fun s => Ret a s.

Definition bind {A B : Type} (m : M A) (f : A -> M B) : M B :=
  fun s =>
    match m s with
    | Ret a s' => f a s'
    | Halt t s' => Halt t s'
    | OutOfFuel s' => OutOfFuel s'
    end.

Definition emit (e : event) : M unit :=
  fun s => Ret tt {| performs := performs s; trace := trace s ++ [e] |}.

Definition halt {A : Type} (t : terminal) : M A := fun s => Halt t s.

Definition out_of_fuel {A : Type} : M A := fun s => OutOfFuel s.

Definition when (b : bool) (m : M unit) : M unit :=
  if b then m else ret tt.

Definition final_state {A : Type} (r : result A) : state :=
  match r with
  | Ret _ s => s
  | Halt _ s => s
  | OutOfFuel s => s
  end.

Definition outcome {A : Type} (r : result A) : option terminal :=
  match r with
  | Halt t _ => Some t
  | _ => None
  end.

End Platform.

Declare Scope task_scope.
Delimit Scope task_scope with task.
Notation "x <- m ;; k" := (Platform.bind m (fun x => k))
  (at level 61, m at next level, right associativity) : task_scope.
Notation "' pat <- m ;; k" := (Platform.bind m (fun x => match x with pat => k end))
  (at level 61, pat pattern, m at next level, right associativity) : task_scope.
Notation "m ;; k" := (Platform.bind m (fun _ => k))
  (at level 61, right associativity) : task_scope.

(** ** The task *)

Module Task.
Import Descriptor Platform.
Local Open Scope string_scope.
Local Open Scope Z_scope.
Local Open Scope task_scope.

(** The double quote inside two of the format strings. *)
Definition dquote : string := String (Ascii.ascii_of_nat 34) EmptyString.

Section WithPlatform.

Variable p : platform.

(** *** The calls into ESP-IDF and FreeRTOS *)

Definition ESP_LOGE (format : string) : M unit := emit (ev_log ESP_LOG_ERROR format).
Definition ESP_LOGW (format : string) : M unit := emit (ev_log ESP_LOG_WARN format).
Definition ESP_LOGI (format : string) : M unit := emit (ev_log ESP_LOG_INFO format).

Definition esp_ota_get_boot_partition : M partition_ptr :=
  emit ev_esp_ota_get_boot_partition;; ret (boot_partition p).

Definition esp_ota_get_running_partition : M partition_ptr :=
  emit ev_esp_ota_get_running_partition;; ret (running_partition p).

Definition esp_ota_get_next_update_partition (start_from : partition_ptr)
    : M partition_ptr :=
  emit ev_esp_ota_get_next_update_partition;; ret (next_update_partition p).

Definition esp_ota_get_last_invalid_partition : M partition_ptr :=
  emit ev_esp_ota_get_last_invalid_partition;; ret (last_invalid_partition p).

(** The out-parameter is written when the call succeeds. *)
Definition esp_ota_get_partition_description (part : partition_ptr)
    (app_desc : local esp_app_desc_t) : M (esp_err_t * local esp_app_desc_t) :=
  emit (ev_esp_ota_get_partition_description part);;
  let '(err, d) := partition_description p part in
  ret (err, if err =? ESP_OK then Initialised d else app_desc).

Definition esp_https_ota_begin : M (esp_err_t * esp_https_ota_handle_t) :=
  emit ev_esp_https_ota_begin;; ret (begin_result p).

Definition esp_https_ota_get_img_desc (handle : esp_https_ota_handle_t)
    (new_app_info : local esp_app_desc_t) : M (esp_err_t * local esp_app_desc_t) :=
  emit ev_esp_https_ota_get_img_desc;;
  let '(err, d) := img_desc_result p in
  ret (err, if err =? ESP_OK then Initialised d else new_app_info).

Definition esp_https_ota_perform (handle : esp_https_ota_handle_t) : M esp_err_t :=
  fun s =>
    Ret (perform_results p (performs s))
        {| performs := S (performs s);
           trace := trace s ++ [ev_esp_https_ota_perform] |}.

Definition esp_https_ota_get_image_len_read (handle : esp_https_ota_handle_t) : M Z :=
  fun s =>
    Ret (image_len_read p (performs s))
        {| performs := performs s;
           trace := trace s ++ [ev_esp_https_ota_get_image_len_read] |}.

Definition esp_https_ota_is_complete_data_received (handle : esp_https_ota_handle_t) : M bool :=
  emit ev_esp_https_ota_is_complete_data_received;; ret (complete_data_received p).

Definition esp_https_ota_finish (handle : esp_https_ota_handle_t) : M esp_err_t :=
  emit ev_esp_https_ota_finish;; ret (finish_result p).

Definition esp_https_ota_abort (handle : esp_https_ota_handle_t) : M unit :=
  emit (ev_esp_https_ota_abort handle).

(** [vTaskDelete(NULL)] deletes the calling task and [esp_restart()] resets
    the chip: neither returns. *)
Definition vTaskDelete_NULL : M unit :=
  emit ev_vTaskDelete;; halt TaskDeleted.

Definition esp_restart : M unit :=
  emit ev_esp_restart;; halt Restarted.

Definition vTaskDelay : M unit := emit ev_vTaskDelay.

Definition abort : M unit :=
  emit ev_abort;; halt Panicked.

(** [assert(c)] and [ESP_ERROR_CHECK(x)]: they abort on failure, and do
    nothing in a build with [NDEBUG]. *)
Definition assert (c : bool) : M unit :=
  when (assertions_enabled p && negb c) abort.

Definition ESP_ERROR_CHECK (x : esp_err_t) : M unit :=
  when (assertions_enabled p && negb (x =? ESP_OK)) abort.

(** [part->label], [part->address]: a load through the pointer.  The log
    lines evaluate their arguments, so the pointers they print from are
    loaded through before the line is written. *)
Definition deref {A : Type} (ptr : option A) : M A :=
  match ptr with
  | Some a => ret a
  | None => emit ev_null_dereference;; halt Panicked
  end.

(** [while (1) { body }] without a [break] in it. *)
Fixpoint while_1 (fuel : nat) (body : M unit) : M unit :=
  match fuel with
  | O => out_of_fuel
  | S fuel' => body;; while_1 fuel' body
  end.

(** The comparator, called from the task on two locals. *)
Definition call_versions_match (desc1 desc2 : local esp_app_desc_t) : M bool :=
  emit (ev_versions_match desc1 desc2);;
  ret (_versions_match (contents desc1) (contents desc2)).

(** *** [_http_cleanup] and [_delete_task] *)

Definition _http_cleanup (https_ota_handle : esp_https_ota_handle_t) : M unit :=
  esp_https_ota_abort https_ota_handle;;
  ESP_LOGE "upgrade failed".

Definition _delete_task (fuel : nat) : M unit :=
  ESP_LOGI "Exiting task ..";;
  vTaskDelete_NULL;;
  while_1 fuel vTaskDelay.

(** *** [ota_update_task], block by block *)

(** Lines 78-89: the partitions. *)
Definition read_partitions : M (partition_ptr * partition_ptr) :=
  ESP_LOGI "Checking for OTA update (%s)";;
  configured_part <- esp_ota_get_boot_partition;;
  running_part <- esp_ota_get_running_partition;;
  update_part <- esp_ota_get_next_update_partition None;;
  when (negb (ptr_eqb configured_part running_part))
    (_ <- deref configured_part;;
     _ <- deref running_part;;
     ESP_LOGW "Configured OTA boot partition at offset 0x%08x, but running from offset 0x%08x");;
  _ <- deref running_part;;
  ESP_LOGI ("Running from part " ++ dquote ++ "%s" ++ dquote ++ " (0x%08x)");;
  ret (running_part, update_part).

(** Lines 91-113: connect to OTA server. *)
Definition connect_to_ota_server (fuel : nat) : M esp_https_ota_handle_t :=
  '(err, https_ota_handle) <- esp_https_ota_begin;;
  when (negb (err =? ESP_OK))
    (ESP_LOGE "Begin failed";;
     _delete_task fuel);;
  when (is_null https_ota_handle)
    (_http_cleanup https_ota_handle;;
     ESP_LOGE "No update found";;
     _delete_task fuel);;
  ret https_ota_handle.

(** The locals the version blocks hand on. *)
Record versions : Type := {
  new_app_info : local esp_app_desc_t;
  running_app_info : local esp_app_desc_t;
  last_invalid_app : partition_ptr;
  invalid_app_info : local esp_app_desc_t
}.

(** Lines 115-136: get versions. *)
Definition get_versions (fuel : nat) (https_ota_handle : esp_https_ota_handle_t)
    (running_part : partition_ptr) : M versions :=
  let new_app_info := Uninitialised (new_app_info_junk p) in
  '(err, new_app_info) <- esp_https_ota_get_img_desc https_ota_handle new_app_info;;
  when (negb (err =? ESP_OK))
    (ESP_LOGE "Can't get server version (%02X)";;
     ESP_ERROR_CHECK err;;
     _http_cleanup https_ota_handle;;
     _delete_task fuel);;
  ESP_LOGI "Firmware on server: %s.%s (%s %s)";;
  let running_app_info := Uninitialised (running_app_info_junk p) in
  '(err_running, running_app_info) <-
     esp_ota_get_partition_description running_part running_app_info;;
  when (err_running =? ESP_OK)
    (ESP_LOGI "Firmware running:   %s.%s (%s %s)");;
  last_invalid_app <- esp_ota_get_last_invalid_partition;;
  let invalid_app_info := Uninitialised (invalid_app_info_junk p) in
  '(err_invalid, invalid_app_info) <-
     esp_ota_get_partition_description last_invalid_app invalid_app_info;;
  when (err_invalid =? ESP_OK)
    (ESP_LOGI "Firmware marked invalid: %s.%s (%s %s)");;
  ret {| new_app_info := new_app_info;
         running_app_info := running_app_info;
         last_invalid_app := last_invalid_app;
         invalid_app_info := invalid_app_info |}.

(** Lines 138-151: compare versions. *)
Definition compare_versions (fuel : nat) (https_ota_handle : esp_https_ota_handle_t)
    (v : versions) : M unit :=
  when (negb (is_null (last_invalid_app v)))
    (same <- call_versions_match (invalid_app_info v) (new_app_info v);;
     when same
       (ESP_LOGW "Version on server is the same as invalid version (%s)";;
        _http_cleanup https_ota_handle;;
        _delete_task fuel));;
  same <- call_versions_match (new_app_info v) (running_app_info v);;
  when same
    (ESP_LOGI "No update available";;
     _http_cleanup https_ota_handle;;
     _delete_task fuel).

(** Lines 159-165: the loop, left by [break] with the last [err]. *)
Fixpoint perform_loop (fuel : nat) (https_ota_handle : esp_https_ota_handle_t)
    : M esp_err_t :=
  match fuel with
  | O => out_of_fuel
  | S fuel' =>
      err <- esp_https_ota_perform https_ota_handle;;
      if negb (err =? ESP_ERR_HTTPS_OTA_IN_PROGRESS) then ret err
      else
        (_ <- esp_https_ota_get_image_len_read https_ota_handle;;
         ESP_LOGI "Bytes read: %d";;
         perform_loop fuel' https_ota_handle)
  end.

(** Lines 153-165: download update. *)
Definition download_update (fuel : nat) (https_ota_handle : esp_https_ota_handle_t)
    (update_part : partition_ptr) : M esp_err_t :=
  ESP_LOGW "Downloading OTA update ..";;
  assert (negb (is_null update_part));;
  _ <- deref update_part;;
  ESP_LOGI ("Writing to part " ++ dquote ++ "%s" ++ dquote ++ " at offset 0x%x");;
  perform_loop fuel https_ota_handle.

(** Lines 167-177: check.  The [||] does not ask for completeness after a
    failed download. *)
Definition check (fuel : nat) (https_ota_handle : esp_https_ota_handle_t)
    (err : esp_err_t) : M unit :=
  failed <- (if negb (err =? ESP_OK) then ret true
             else
               (complete <- esp_https_ota_is_complete_data_received https_ota_handle;;
                ret (negb (Bool.eqb complete true))));;
  when failed
    (ESP_LOGE "Download error (%u)";;
     _http_cleanup https_ota_handle;;
     _delete_task fuel);;
  err <- esp_https_ota_finish https_ota_handle;;
  when (err =? ESP_ERR_OTA_VALIDATE_FAILED)
    (ESP_LOGE "Downloaded image is corrupted").

(** Lines 179-186: restart with new image. *)
Definition restart_with_new_image (fuel : nat) : M unit :=
  ESP_LOGI "Prepare to restart system!";;
  esp_restart;;
  while_1 fuel vTaskDelay.

Definition ota_update_task (fuel : nat) : M unit :=
  '(running_part, update_part) <- read_partitions;;
  https_ota_handle <- connect_to_ota_server fuel;;
  v <- get_versions fuel https_ota_handle running_part;;
  compare_versions fuel https_ota_handle v;;
  err <- download_update fuel https_ota_handle update_part;;
  check fuel https_ota_handle err;;
  restart_with_new_image fuel.

(** One invocation of the task by the scheduler. *)
Definition run (fuel : nat) : result unit :=
  ota_update_task fuel initial_state.

End WithPlatform.

(** *** What a run shows *)

Definition events (p : platform) (fuel : nat) : list event :=
  trace (final_state (run p fuel)).

Definition ends_in (p : platform) (fuel : nat) : option terminal :=
  outcome (run p fuel).

(** The events of [n] rounds of the loop that found the download in
    progress. *)
Definition polling (n : nat) : list event :=
  List.concat
    (repeat [ev_esp_https_ota_perform;
             ev_esp_https_ota_get_image_len_read;
             ev_log ESP_LOG_INFO "Bytes read: %d"] n).

Definition is_perform (e : event) : bool :=
  match e with
  | ev_esp_https_ota_perform => true
  | _ => false
  end.

Definition is_abort (e : event) : bool :=
  match e with
  | ev_esp_https_ota_abort _ => true
  | _ => false
  end.

Definition perform_calls (evs : list event) : nat :=
  List.length (filter is_perform evs).

(** The call through which control leaves the task for good. *)
Definition leaves_by (t : terminal) (e : event) : bool :=
  match t, e with
  | TaskDeleted, ev_vTaskDelete => true
  | Restarted, ev_esp_restart => true
  | Panicked, ev_abort => true
  | Panicked, ev_null_dereference => true
  | _, _ => false
  end.

(** What a local holds after the call that was to fill it answered
    [answer]. *)
Definition filled (answer : esp_err_t * esp_app_desc_t) (junk : esp_app_desc_t)
    : local esp_app_desc_t :=
  if fst answer =? ESP_OK then Initialised (snd answer) else Uninitialised junk.

(** The three locals of [ota_update_task] when the versions are compared. *)
Definition new_local (p : platform) : local esp_app_desc_t :=
  filled (img_desc_result p) (new_app_info_junk p).

Definition running_local (p : platform) : local esp_app_desc_t :=
  filled (partition_description p (running_partition p)) (running_app_info_junk p).

Definition invalid_local (p : platform) : local esp_app_desc_t :=
  filled (partition_description p (last_invalid_partition p)) (invalid_app_info_junk p).

(** The two tests of the version comparison, on what the locals hold. *)
Definition same_as_invalid (p : platform) : bool :=
  negb (is_null (last_invalid_partition p)) &&
  _versions_match (contents (invalid_local p)) (contents (new_local p)).

Definition same_as_running (p : platform) : bool :=
  _versions_match (contents (new_local p)) (contents (running_local p)).

End Task.

(** ** Concrete platforms *)

Module Scenarios.
Import Descriptor Platform.
Local Open Scope string_scope.
Local Open Scope Z_scope.

Definition factory : esp_partition_t := {| label := "factory"; address := 0x010000 |}.
Definition ota_0 : esp_partition_t := {| label := "ota_0"; address := 0x160000 |}.
Definition ota_1 : esp_partition_t := {| label := "ota_1"; address := 0x2A0000 |}.

Definition fw (ver : string) : esp_app_desc_t :=
  mk_desc (text "fw") (text ver) (text "2024-01-01") (text "00:00").

(** Stack contents that are no firmware's descriptor. *)
Definition junk : esp_app_desc_t :=
  mk_desc (text "?") (text "?") (text "?") (text "?").

Definition ESP_ERR_NOT_FOUND : esp_err_t := 0x105.
Definition ESP_ERR_INVALID_ARG : esp_err_t := 0x102.

(** The descriptors on flash: [running] in the factory partition, [invalid]
    (when there is one) in [ota_1]. *)
Definition descriptions (running : option esp_app_desc_t) (invalid : option esp_app_desc_t)
    (part : partition_ptr) : esp_err_t * esp_app_desc_t :=
  match part with
  | None => (ESP_ERR_INVALID_ARG, junk)
  | Some q =>
      if partition_eqb q factory then
        match running with
        | Some d => (ESP_OK, d)
        | None => (ESP_ERR_NOT_FOUND, junk)
        end
      else if partition_eqb q ota_1 then
        match invalid with
        | Some d => (ESP_OK, d)
        | None => (ESP_ERR_NOT_FOUND, junk)
        end
      else (ESP_ERR_NOT_FOUND, junk)
  end.

(** The [k]-th call of [esp_https_ota_perform] answers the [k]-th code of the
    script, and the last one from then on. *)
Fixpoint script (codes : list esp_err_t) (last : esp_err_t) (k : nat) : esp_err_t :=
  match codes, k with
  | [], _ => last
  | c :: _, O => c
  | _ :: rest, S k' => script rest last k'
  end.

Definition in_progress (n : nat) : list esp_err_t :=
  repeat ESP_ERR_HTTPS_OTA_IN_PROGRESS n.

(** A device running fw 1.0 from the factory partition, with [next] as the
    next update partition, a server that offers [remote], and the given
    answers of the transport. *)
Definition device (next last_invalid : partition_ptr)
    (running invalid : option esp_app_desc_t)
    (begin_ : esp_err_t * esp_https_ota_handle_t)
    (remote : esp_err_t * esp_app_desc_t)
    (steps : nat -> esp_err_t) (complete : bool) (finish : esp_err_t) : platform :=
  {| assertions_enabled := true;
     boot_partition := Some factory;
     running_partition := Some factory;
     next_update_partition := next;
     last_invalid_partition := last_invalid;
     partition_description := descriptions running invalid;
     begin_result := begin_;
     img_desc_result := remote;
     perform_results := steps;
     image_len_read := fun k => 1024 * Z.of_nat k;
     complete_data_received := complete;
     finish_result := finish;
     new_app_info_junk := junk;
     running_app_info_junk := junk;
     invalid_app_info_junk := junk |}.

(** Scenario C: fw 1.0 runs, the server has fw 2.0, three steps in progress,
    then done; the image is complete and [finish] answers [finish]. *)
Definition update_available (finish : esp_err_t) : platform :=
  device (Some ota_0) None (Some (fw "1.0")) None
         (ESP_OK, Some 1%nat) (ESP_OK, fw "2.0")
         (script (in_progress 3) ESP_OK) true finish.

(** Scenario A: the server has what runs. *)
Definition up_to_date (next : partition_ptr) : platform :=
  device next None (Some (fw "1.0")) None
         (ESP_OK, Some 1%nat) (ESP_OK, fw "1.0")
         (script (in_progress 3) ESP_OK) true ESP_OK.

(** Scenario B: the server has the version that was marked invalid. *)
Definition known_bad : platform :=
  device (Some ota_0) (Some ota_1) (Some (fw "1.0")) (Some (fw "2.0"))
         (ESP_OK, Some 1%nat) (ESP_OK, fw "2.0")
         (script (in_progress 3) ESP_OK) true ESP_OK.

(** Scenario D: the second step fails. *)
Definition mid_stream_failure : platform :=
  device (Some ota_0) None (Some (fw "1.0")) None
         (ESP_OK, Some 1%nat) (ESP_OK, fw "2.0")
         (script [ESP_ERR_HTTPS_OTA_IN_PROGRESS] ESP_FAIL) false ESP_OK.

(** The server cannot be reached. *)
Definition begin_fails : platform :=
  device (Some ota_0) None (Some (fw "1.0")) None
         (ESP_FAIL, None) (ESP_OK, fw "2.0")
         (script (in_progress 3) ESP_OK) true ESP_OK.

(** The running partition carries no descriptor (a factory image that was
    never tagged). *)
Definition untagged_running : platform :=
  device (Some ota_0) None None None
         (ESP_OK, Some 1%nat) (ESP_OK, fw "2.0")
         (script (in_progress 3) ESP_OK) true ESP_OK.

(** No next update partition, and the download is due. *)
Definition no_update_partition : platform :=
  device None None (Some (fw "1.0")) None
         (ESP_OK, Some 1%nat) (ESP_OK, fw "2.0")
         (script (in_progress 3) ESP_OK) true ESP_OK.

(** The next update partition is the one the firmware runs from. *)
Definition update_into_running : platform :=
  device (Some factory) None (Some (fw "1.0")) None
         (ESP_OK, Some 1%nat) (ESP_OK, fw "2.0")
         (script (in_progress 3) ESP_OK) true ESP_OK.

(** A partition was marked invalid and carries no descriptor. *)
Definition untagged_invalid : platform :=
  device (Some ota_0) (Some ota_1) (Some (fw "1.0")) None
         (ESP_OK, Some 1%nat) (ESP_OK, fw "2.0")
         (script (in_progress 3) ESP_OK) true ESP_OK.

(** Two descriptors that agree as strings and differ after the terminator of
    the version. *)
Definition fw_1_A : esp_app_desc_t :=
  mk_desc (text "fw") (text "1" ++ [x00] ++ text "A")%list (text "2024-01-01") (text "00:00").
Definition fw_1_B : esp_app_desc_t :=
  mk_desc (text "fw") (text "1" ++ [x00] ++ text "B")%list (text "2024-01-01") (text "00:00").

End Scenarios.

(** ** More to observe in a descriptor and in a run *)

Module Observing.
Import Descriptor Platform Task.

(** Every byte of [s] is NUL. *)
Definition all_nul (s : list byte) : bool := forallb (Byte.eqb x00) s.

(** An array that is NUL from its terminator to its end, as a C initialiser
    with a string literal leaves it. *)
Fixpoint nul_padded (s : list byte) : bool :=
  match s with
  | [] => true
  | c :: t => if Byte.eqb c x00 then all_nul t else nul_padded t
  end.

Definition zero_filled (d : esp_app_desc_t) : Prop :=
  well_formed d /\
  nul_padded (project_name d) = true /\
  nul_padded (version d) = true /\
  nul_padded (date d) = true /\
  nul_padded (time d) = true.

(** The calls of one kind in a trace. *)
Definition calls (kind : event -> bool) (evs : list event) : nat :=
  List.length (filter kind evs).

Definition is_begin (e : event) : bool :=
  match e with
  | ev_esp_https_ota_begin => true
  | _ => false
  end.

Definition is_finish (e : event) : bool :=
  match e with
  | ev_esp_https_ota_finish => true
  | _ => false
  end.

Definition is_len_read (e : event) : bool :=
  match e with
  | ev_esp_https_ota_get_image_len_read => true
  | _ => false
  end.

(** The same platform with another answer of [esp_ota_get_boot_partition]. *)
Definition with_boot (p : platform) (boot : partition_ptr) : platform :=
  {| assertions_enabled := assertions_enabled p;
     boot_partition := boot;
     running_partition := running_partition p;
     next_update_partition := next_update_partition p;
     last_invalid_partition := last_invalid_partition p;
     partition_description := partition_description p;
     begin_result := begin_result p;
     img_desc_result := img_desc_result p;
     perform_results := perform_results p;
     image_len_read := image_len_read p;
     complete_data_received := complete_data_received p;
     finish_result := finish_result p;
     new_app_info_junk := new_app_info_junk p;
     running_app_info_junk := running_app_info_junk p;
     invalid_app_info_junk := invalid_app_info_junk p |}.

(** The server answers, and the descriptor cannot be read from the image. *)
Definition descriptor_unavailable : platform :=
  Scenarios.device (Some Scenarios.ota_0) None (Some (Scenarios.fw "1.0")) None
                   (ESP_OK, Some 1%nat) (ESP_FAIL, Scenarios.junk)
                   (Scenarios.script (Scenarios.in_progress 3) ESP_OK) true ESP_OK.

(** The download never comes to an end. *)
Definition stalled_download : platform :=
  Scenarios.device (Some Scenarios.ota_0) None (Some (Scenarios.fw "1.0")) None
                   (ESP_OK, Some 1%nat) (ESP_OK, Scenarios.fw "2.0")
                   (fun _ => ESP_ERR_HTTPS_OTA_IN_PROGRESS) false ESP_OK.

(** The boot data names [ota_1] while the factory image runs. *)
Definition booted_elsewhere : platform :=
  with_boot (Scenarios.update_available ESP_OK) (Some Scenarios.ota_1).

End Observing.

(** * Properties *)

(** ** The comparator *)

Module DescriptorFacts.
Import Descriptor Scenarios.

Lemma uchar_inj (a b : byte) : uchar a = uchar b -> a = b.
Proof.
  unfold uchar. intros H. apply N2Z.inj in H.
  assert (Some a = Some b) as E.
  { rewrite <- (Byte.of_to_N a), <- (Byte.of_to_N b). now rewrite H. }
  now injection E.
Qed.

Lemma byte_eqb_spec (a b : byte) : reflect (a = b) (Byte.eqb a b).
Proof.
  destruct (Byte.eqb a b) eqn:E; constructor.
  - now apply Byte.byte_dec_bl.
  - now apply Byte.eqb_false.
Qed.

Lemma uchar_diff (a b : byte) : a <> b -> uchar a - uchar b <> 0.
Proof.
  intros Hne H. apply Hne, uchar_inj. lia.
Qed.

(** [strncmp] answers 0 exactly when the two arrays hold the same C string
    within [n] bytes. *)
Lemma strncmp_zero_iff (n : nat) : forall s1 s2,
  strncmp s1 s2 n = 0 <-> c_string n s1 = c_string n s2.
Proof.
  induction n as [|n IH]; intros s1 s2; [now destruct s1, s2|].
  destruct s1 as [|c1 t1], s2 as [|c2 t2]; cbn [strncmp c_string hd tl].
  - destruct (byte_eqb_spec x00 x00); cbn [negb]; tauto.
  - destruct (byte_eqb_spec x00 c2) as [<-|Hne]; cbn [negb].
    + destruct (byte_eqb_spec x00 x00); tauto.
    + destruct (byte_eqb_spec c2 x00) as [->|_]; [contradiction|].
      split; [intros H; now apply uchar_diff in H | discriminate].
  - destruct (byte_eqb_spec c1 x00) as [->|Hne]; cbn [negb].
    + destruct (byte_eqb_spec x00 x00); cbn [negb]; tauto.
    + split; [intros H; now apply uchar_diff in H | discriminate].
  - destruct (byte_eqb_spec c1 c2) as [<-|Hne]; cbn [negb].
    + destruct (byte_eqb_spec c1 x00) as [->|Hnz]; [tauto|].
      rewrite IH. split; [now intros ->|]. intros H. now injection H.
    + split; [intros H; now apply uchar_diff in H|].
      destruct (byte_eqb_spec c1 x00) as [->|H1], (byte_eqb_spec c2 x00) as [->|H2];
        try discriminate; try contradiction.
      intros H. injection H as Hc _. contradiction.
Qed.


Lemma padded_length (n : nat) (l : list byte) : List.length (padded n l) = n.
Proof.
  unfold padded. rewrite length_firstn, length_app, repeat_length. lia.
Qed.

Lemma mk_desc_well_formed (name ver d t : list byte) : well_formed (mk_desc name ver d t).
Proof.
  unfold well_formed, mk_desc. cbn [version project_name time date].
  now rewrite !padded_length.
Qed.

(** C2, as stated, fails: two well-formed descriptors whose version arrays
    differ after the terminator are found equal. *)
Lemma versions_match_ignores_bytes_after_nul :
  well_formed fw_1_A /\ well_formed fw_1_B /\
  version fw_1_A <> version fw_1_B /\
  _versions_match fw_1_A fw_1_B = true.
Proof.
  split; [apply mk_desc_well_formed|].
  split; [apply mk_desc_well_formed|].
  split; [|reflexivity].
  intros H. vm_compute in H. discriminate H.
Qed.

(** C2, amended: [_versions_match a b] is true if and only if the project
    name, version, date and time arrays of [a] and [b] hold the same C string
    within their declared size (the bytes before the first NUL, all of them
    when there is none); bytes after a terminator are not compared.  So
    descriptors whose strings differ in any one field do not match, and
    descriptors with identical arrays do. *)
Theorem versions_match_iff_same_strings (a b : esp_app_desc_t) :
  (_versions_match a b = true <->
     c_string sizeof_project_name (project_name a)
       = c_string sizeof_project_name (project_name b) /\
     c_string sizeof_version (version a) = c_string sizeof_version (version b) /\
     c_string sizeof_date (date a) = c_string sizeof_date (date b) /\
     c_string sizeof_time (time a) = c_string sizeof_time (time b)) /\
  ((project_name a = project_name b /\ version a = version b /\
    date a = date b /\ time a = time b) -> _versions_match a b = true).
Proof.
  assert (_versions_match a b = true <->
     c_string sizeof_project_name (project_name a)
       = c_string sizeof_project_name (project_name b) /\
     c_string sizeof_version (version a) = c_string sizeof_version (version b) /\
     c_string sizeof_date (date a) = c_string sizeof_date (date b) /\
     c_string sizeof_time (time a) = c_string sizeof_time (time b)) as Hiff.
  { unfold _versions_match.
    rewrite !andb_true_iff, !Z.eqb_eq, !strncmp_zero_iff. tauto. }
  split; [exact Hiff|].
  intros (Hn & Hv & Hd & Ht). apply Hiff. now rewrite Hn, Hv, Hd, Ht.
Qed.

Lemma versions_match_iff_same_strings_witness :
  _versions_match (fw "1.0") (fw "1.0") = true.
Proof.
  apply (proj2 (versions_match_iff_same_strings (fw "1.0") (fw "1.0"))).
  repeat split; reflexivity.
Defined.


End DescriptorFacts.

(** ** The task *)

Module TaskFacts.
Import Descriptor Platform Task Scenarios.
Local Open Scope string_scope.
Local Open Scope Z_scope.
Local Open Scope list_scope.

Section Loop.
Variable p : platform.
Variable h : esp_https_ota_handle_t.

Lemma in_progress_shift (k fuel : nat) :
  (forall i, (i < fuel)%nat -> perform_results p (S k + i) = ESP_ERR_HTTPS_OTA_IN_PROGRESS) ->
  perform_results p k = ESP_ERR_HTTPS_OTA_IN_PROGRESS ->
  forall i, (i < S fuel)%nat -> perform_results p (k + i) = ESP_ERR_HTTPS_OTA_IN_PROGRESS.
Proof.
  intros Hall H0 [|i] Hi.
  - now rewrite Nat.add_0_r.
  - replace (k + S i)%nat with (S k + i)%nat by lia. apply Hall. lia.
Qed.

Lemma polling_S (n : nat) (l : list event) :
  [ev_esp_https_ota_perform; ev_esp_https_ota_get_image_len_read;
   ev_log ESP_LOG_INFO "Bytes read: %d"] ++ polling n ++ l = polling (S n) ++ l.
Proof. reflexivity. Qed.

(** The loop either runs out of fuel with every answer so far "in progress",
    or returns the first answer that is not, after [n] rounds of polling. *)
Lemma perform_loop_result (fuel : nat) : forall s,
  match perform_loop p fuel h s with
  | Ret err s' =>
      exists n, (n < fuel)%nat /\
        err = perform_results p (performs s + n) /\
        err <> ESP_ERR_HTTPS_OTA_IN_PROGRESS /\
        (forall i, (i < n)%nat ->
           perform_results p (performs s + i) = ESP_ERR_HTTPS_OTA_IN_PROGRESS) /\
        trace s' = trace s ++ polling n ++ [ev_esp_https_ota_perform]
  | Halt _ _ => False
  | OutOfFuel s' =>
      (forall i, (i < fuel)%nat ->
         perform_results p (performs s + i) = ESP_ERR_HTTPS_OTA_IN_PROGRESS) /\
      trace s' = trace s ++ polling fuel
  end.
Proof.
  induction fuel as [|fuel IH]; intros s.
  - cbn. split; [intros; lia | now rewrite app_nil_r].
  - cbn [perform_loop]. unfold bind at 1. cbn [esp_https_ota_perform].
    destruct (Z.eqb_spec (perform_results p (performs s)) ESP_ERR_HTTPS_OTA_IN_PROGRESS)
      as [E|E]; cbn [negb].
    + unfold bind at 1. cbn [esp_https_ota_get_image_len_read].
      unfold bind at 1. unfold ESP_LOGI, emit. cbn [performs trace].
      match goal with
      | |- match perform_loop p fuel h ?s0 with _ => _ end =>
          specialize (IH s0); destruct (perform_loop p fuel h s0)
      end; cbn [performs trace] in IH.
      * destruct IH as (n & Hn & He & Hne & Hall & Ht).
        exists (S n). split; [lia|].
        split; [rewrite He; f_equal; lia|].
        split; [assumption|].
        split; [now apply in_progress_shift|].
        rewrite Ht, <- !app_assoc. apply (f_equal (app (trace s))), polling_S.
      * assumption.
      * destruct IH as (Hall & Ht).
        split; [now apply in_progress_shift|].
        rewrite Ht, <- !app_assoc. apply (f_equal (app (trace s))).
        rewrite <- (app_nil_r (polling fuel)), <- (app_nil_r (polling (S fuel))).
        apply polling_S.
    + cbn. exists 0%nat. rewrite Nat.add_0_r.
      split; [lia|]. split; [reflexivity|]. split; [assumption|].
      split; [intros; lia | reflexivity].
Qed.

End Loop.

Lemma in_polling (e : event) (n : nat) :
  In e (polling n) ->
  e = ev_esp_https_ota_perform \/ e = ev_esp_https_ota_get_image_len_read \/
  e = ev_log ESP_LOG_INFO "Bytes read: %d".
Proof.
  induction n as [|n IH]; cbn; [tauto|].
  intros [H|[H|[H|H]]]; auto.
Qed.

Ltac exec_in H :=
  cbv beta iota zeta delta
    [run events ends_in ota_update_task read_partitions connect_to_ota_server get_versions
     compare_versions download_update check restart_with_new_image
     _delete_task _http_cleanup call_versions_match
     esp_ota_get_boot_partition esp_ota_get_running_partition
     esp_ota_get_next_update_partition esp_ota_get_last_invalid_partition
     esp_ota_get_partition_description esp_https_ota_begin esp_https_ota_get_img_desc
     esp_https_ota_perform esp_https_ota_get_image_len_read
     esp_https_ota_is_complete_data_received esp_https_ota_finish esp_https_ota_abort
     vTaskDelete_NULL esp_restart vTaskDelay abort assert ESP_ERROR_CHECK deref
     ESP_LOGE ESP_LOGW ESP_LOGI
     bind ret emit halt out_of_fuel when initial_state
     new_app_info running_app_info last_invalid_app invalid_app_info
     is_null performs trace negb andb Bool.eqb] in H.

Ltac step_in H :=
  match type of H with
  | context [perform_loop ?p ?f ?h ?s] =>
      let L := fresh "Hloop" in
      pose proof (perform_loop_result p h f s) as L;
      revert H;
      destruct (perform_loop p f h s) as [? [? ?]|? [? ?]|[? ?]];
      intro H;
      cbv beta iota zeta delta [performs trace] in L
  | context [match ?x with _ => _ end] =>
      lazymatch x with
      | context [match _ with _ => _ end] => fail
      | _ => revert H; destruct x eqn:?; intro H
      end
  end; exec_in H; cbv beta iota delta [fst snd].

Ltac paths p fuel :=
  let r := fresh "r" in
  let Hr := fresh "Hr" in
  unfold events, ends_in in *;
  remember (run p fuel) as r eqn:Hr;
  exec_in Hr; repeat step_in Hr; subst r;
  cbv beta iota zeta delta [final_state outcome trace performs] in *.


Lemma perform_calls_app (a b : list event) :
  perform_calls (a ++ b) = (perform_calls a + perform_calls b)%nat.
Proof.
  unfold perform_calls. now rewrite filter_app, length_app.
Qed.

Lemma perform_calls_polling (n : nat) : perform_calls (polling n) = n.
Proof.
  induction n as [|n IH]; [reflexivity|].
  change (polling (S n)) with
    ([ev_esp_https_ota_perform; ev_esp_https_ota_get_image_len_read;
      ev_log ESP_LOG_INFO "Bytes read: %d"] ++ polling n).
  rewrite perform_calls_app, IH. reflexivity.
Qed.

(** The round in which the loop is left is determined by the answers. *)
Lemma first_answer_unique (r : nat -> esp_err_t) (n m : nat) :
  (forall i, (i < n)%nat -> r i = ESP_ERR_HTTPS_OTA_IN_PROGRESS) ->
  r n <> ESP_ERR_HTTPS_OTA_IN_PROGRESS ->
  (forall i, (i < m)%nat -> r (0 + i)%nat = ESP_ERR_HTTPS_OTA_IN_PROGRESS) ->
  r (0 + m)%nat <> ESP_ERR_HTTPS_OTA_IN_PROGRESS ->
  m = n.
Proof.
  intros Hn Hdn Hm Hdm. cbn in Hm, Hdm.
  destruct (Nat.lt_trichotomy m n) as [H|[H|H]]; [|assumption|].
  - exfalso. now apply Hdm, Hn.
  - exfalso. now apply Hdn, Hm.
Qed.

Lemma snoc2 {A : Type} (l : list A) (a b : A) :
  (l ++ [a]) ++ [b] = l ++ [a; b].
Proof. now rewrite <- !app_assoc. Qed.

Lemma snoc3 {A : Type} (l : list A) (a b c : A) :
  ((l ++ [a]) ++ [b]) ++ [c] = l ++ [a; b; c].
Proof. now rewrite <- !app_assoc. Qed.

Lemma snoc4 {A : Type} (l : list A) (a b c d : A) :
  (((l ++ [a]) ++ [b]) ++ [c]) ++ [d] = l ++ [a; b; c; d].
Proof. now rewrite <- !app_assoc. Qed.

Lemma snoc6 {A : Type} (l : list A) (a b c d e f : A) :
  (((((l ++ [a]) ++ [b]) ++ [c]) ++ [d]) ++ [e]) ++ [f] = l ++ [a; b; c; d; e; f].
Proof. now rewrite <- !app_assoc. Qed.

Lemma snoc5 {A : Type} (l : list A) (a b c d e : A) :
  ((((l ++ [a]) ++ [b]) ++ [c]) ++ [d]) ++ [e] = l ++ [a; b; c; d; e].
Proof. now rewrite <- !app_assoc. Qed.

(** What the loop lemma says, with the state it speaks of replaced. *)
Ltac loop_facts :=
  repeat match goal with
  | H : False |- _ => contradiction
  | H : exists n : nat, _ |- _ =>
      let rounds := fresh "rounds" in
      destruct H as (rounds & ?Hrounds & ?Herr & ?Hdone & ?Hbusy & ?Htrace)
  | H : (forall i : nat, _) /\ _ = _ |- _ => destruct H as (?Hbusy & ?Htrace)
  end; subst.

(** An event named in [H] is looked up in a trace. *)
Ltac in_hyp H :=
  cbn [app In] in H;
  lazymatch type of H with
  | False => contradiction
  | _ = _ => try discriminate H
  | _ \/ _ => destruct H as [H|H]; in_hyp H
  | In _ (polling _) => apply in_polling in H; in_hyp H
  | In _ (_ ++ _) => apply in_app_or in H; in_hyp H
  | _ => idtac
  end.

Ltac find_in :=
  match goal with
  | |- In _ (_ ++ _) => apply in_or_app; find_in
  | |- In _ (_ :: _) => (left; reflexivity) || (right; find_in)
  | |- _ \/ _ => (left; find_in) || (right; find_in)
  | |- _ = _ => reflexivity
  end.

Ltac not_in :=
  let H := fresh "Hin" in
  intro H; in_hyp H.

(** C9, as stated, fails: with no next update partition the run ends in the
    abort of the failed assertion, neither deleted nor restarted. *)
Lemma failed_assertion_is_neither_delete_nor_restart :
  ends_in no_update_partition 10 = Some Panicked /\
  existsb (leaves_by TaskDeleted) (events no_update_partition 10) = false /\
  existsb (leaves_by Restarted) (events no_update_partition 10) = false /\
  last (events no_update_partition 10) ev_vTaskDelay = ev_abort.
Proof. repeat split; reflexivity. Qed.

(** C9, amended: the task never returns to its caller, and once some call of
    [esp_https_ota_perform] answers other than "in progress" the run ends
    in one of three terminal actions, the last thing the task does:
    [vTaskDelete(NULL)], [esp_restart()], or a panic (the [abort()] of a
    failed [assert] or [ESP_ERROR_CHECK], or a load through a NULL partition
    pointer). *)
Theorem task_ends_in_terminal_action (p : platform) (fuel n : nat) :
  (forall a s, run p fuel <> Ret a s) /\
  ((n < fuel)%nat ->
   perform_results p n <> ESP_ERR_HTTPS_OTA_IN_PROGRESS ->
   exists t pre e,
     ends_in p fuel = Some t /\ events p fuel = pre ++ [e] /\ leaves_by t e = true).
Proof.
  paths p fuel; loop_facts.
  all: split; [discriminate|]; intros Hn Hdone'.
  all: try (do 3 eexists; repeat split; reflexivity).
  all: exfalso; apply Hdone'; apply (Hbusy n Hn).
Qed.

Lemma task_ends_in_terminal_action_witness :
  exists t pre e,
    ends_in (update_available ESP_OK) 10 = Some t /\
    events (update_available ESP_OK) 10 = pre ++ [e] /\ leaves_by t e = true.
Proof.
  apply (proj2 (task_ends_in_terminal_action (update_available ESP_OK) 10 3)).
  - lia.
  - vm_compute. discriminate.
Defined.

(** C7, as stated, fails: when [esp_https_ota_begin] fails the task deletes
    itself and [esp_https_ota_abort] is never called. *)
Lemma begin_failure_skips_abort :
  fst (begin_result begin_fails) <> ESP_OK /\
  ends_in begin_fails 10 = Some TaskDeleted /\
  existsb is_abort (events begin_fails 10) = false.
Proof.
  split; [discriminate|]. split; reflexivity.
Qed.

(** C7, amended: whenever the task deletes itself after
    [esp_https_ota_begin] answered [ESP_OK] (no session handle, the
    descriptor not fetched, either version match, a failed or incomplete
    download), [esp_https_ota_abort] was called on the session handle before
    [vTaskDelete], the last call of the run; after a failed begin the task
    deletes itself without calling [esp_https_ota_abort]. *)
Theorem delete_after_begin_aborts_session (p : platform) (fuel : nat) :
  ends_in p fuel = Some TaskDeleted ->
  (fst (begin_result p) = ESP_OK ->
   exists pre,
     events p fuel = pre ++ [ev_vTaskDelete] /\
     In (ev_esp_https_ota_abort (snd (begin_result p))) pre) /\
  (fst (begin_result p) <> ESP_OK ->
   forall handle, ~ In (ev_esp_https_ota_abort handle) (events p fuel)).
Proof.
  paths p fuel; loop_facts; intros Hend; try discriminate Hend.
  all: cbn [fst snd].
  all: split; intros Hbegin.
  all: try (exfalso; apply Hbegin; now apply Z.eqb_eq).
  all: try (rewrite Hbegin in *; discriminate).
  all: try (eexists; split; [reflexivity|find_in]).
  all: intros handle; not_in.
Qed.

Lemma delete_after_begin_aborts_session_witness :
  exists pre,
    events mid_stream_failure 10 = pre ++ [ev_vTaskDelete] /\
    In (ev_esp_https_ota_abort (snd (begin_result mid_stream_failure))) pre.
Proof.
  apply (proj1 (delete_after_begin_aborts_session mid_stream_failure 10 eq_refl)).
  reflexivity.
Defined.

(** C1, as stated, fails: the session is opened whatever the partitions
    are.  With no next update partition and nothing new on the server the
    task ends as "No update available"; with the next update partition equal
    to the running one the update is downloaded and the device restarted. *)
Lemma session_opened_before_partition_check :
  (next_update_partition (up_to_date None) = None /\
   In ev_esp_https_ota_begin (events (up_to_date None) 10) /\
   In (ev_log ESP_LOG_INFO "No update available") (events (up_to_date None) 10) /\
   ends_in (up_to_date None) 10 = Some TaskDeleted) /\
  (next_update_partition update_into_running = running_partition update_into_running /\
   In ev_esp_https_ota_begin (events update_into_running 10) /\
   perform_calls (events update_into_running 10) = 4%nat /\
   ends_in update_into_running 10 = Some Restarted).
Proof.
  split.
  - split; [reflexivity|].
    split; [vm_compute; find_in|].
    split; [vm_compute; find_in|].
    vm_compute; reflexivity.
  - split; [reflexivity|].
    split; [vm_compute; find_in|].
    split; vm_compute; reflexivity.
Qed.

(** C1, amended: with no next update partition the task never calls
    [esp_https_ota_perform] and never restarts the device, but the session
    is opened first: the partition is checked only when the download is due,
    after [esp_https_ota_begin] and the version comparison, and the run ends
    there in a panic (the [abort()] of the failed [assert]; a load through
    NULL in a build without assertions).  A next update partition equal to
    the running one is not checked. *)
Theorem missing_update_partition_stops_download (p : platform) (fuel : nat) :
  next_update_partition p = None ->
  ~ In ev_esp_https_ota_perform (events p fuel) /\
  ends_in p fuel <> Some Restarted /\
  (In (ev_log ESP_LOG_WARN "Downloading OTA update ..") (events p fuel) ->
   ends_in p fuel = Some Panicked /\
   exists pre,
     events p fuel =
       pre ++ [ev_log ESP_LOG_WARN "Downloading OTA update ..";
               if assertions_enabled p then ev_abort else ev_null_dereference] /\
     In ev_esp_https_ota_begin pre).
Proof.
  intros Hnone.
  paths p fuel; loop_facts; try congruence.
  all: split; [not_in|]; split; [discriminate|].
  all: intros Hdl.
  all: try (exfalso; in_hyp Hdl; fail).
  all: split; [reflexivity|].
  all: eexists; split; [apply snoc2|find_in].
Qed.

Lemma missing_update_partition_stops_download_witness :
  ~ In ev_esp_https_ota_perform (events no_update_partition 10) /\
  ends_in no_update_partition 10 <> Some Restarted /\
  (In (ev_log ESP_LOG_WARN "Downloading OTA update ..") (events no_update_partition 10) ->
   ends_in no_update_partition 10 = Some Panicked /\
   exists pre,
     events no_update_partition 10 =
       pre ++ [ev_log ESP_LOG_WARN "Downloading OTA update ..";
               if assertions_enabled no_update_partition then ev_abort
               else ev_null_dereference] /\
     In ev_esp_https_ota_begin pre).
Proof.
  apply (missing_update_partition_stops_download no_update_partition 10).
  reflexivity.
Defined.

(** C3: when [esp_https_ota_finish] is called and answers
    [ESP_ERR_OTA_VALIDATE_FAILED], the task logs "Downloaded image is
    corrupted" and goes on to [esp_restart()]: the run ends restarted, with
    these calls as its last events. *)
Theorem validate_failed_still_restarts (p : platform) (fuel : nat) :
  In ev_esp_https_ota_finish (events p fuel) ->
  finish_result p = ESP_ERR_OTA_VALIDATE_FAILED ->
  ends_in p fuel = Some Restarted /\
  exists pre,
    events p fuel =
      pre ++ [ev_esp_https_ota_finish;
              ev_log ESP_LOG_ERROR "Downloaded image is corrupted";
              ev_log ESP_LOG_INFO "Prepare to restart system!";
              ev_esp_restart].
Proof.
  paths p fuel; loop_facts; intros Hfin Hres.
  all: try (exfalso; in_hyp Hfin; fail).
  all: try (rewrite Hres in *; discriminate).
  all: split; [reflexivity|]; eexists; apply snoc4.
Qed.

Lemma validate_failed_still_restarts_witness :
  ends_in (update_available ESP_ERR_OTA_VALIDATE_FAILED) 10 = Some Restarted /\
  exists pre,
    events (update_available ESP_ERR_OTA_VALIDATE_FAILED) 10 =
      pre ++ [ev_esp_https_ota_finish;
              ev_log ESP_LOG_ERROR "Downloaded image is corrupted";
              ev_log ESP_LOG_INFO "Prepare to restart system!";
              ev_esp_restart].
Proof.
  apply (validate_failed_still_restarts (update_available ESP_ERR_OTA_VALIDATE_FAILED) 10).
  - vm_compute. find_in.
  - reflexivity.
Defined.

(** C4, as stated, fails: [esp_https_ota_finish] answers [ESP_FAIL] and the
    device is restarted all the same; the task does not delete itself. *)
Lemma finish_error_still_restarts :
  finish_result (update_available ESP_FAIL) = ESP_FAIL /\
  ESP_FAIL <> ESP_ERR_OTA_VALIDATE_FAILED /\
  In ev_esp_https_ota_finish (events (update_available ESP_FAIL) 10) /\
  ends_in (update_available ESP_FAIL) 10 = Some Restarted /\
  In ev_esp_restart (events (update_available ESP_FAIL) 10) /\
  existsb (leaves_by TaskDeleted) (events (update_available ESP_FAIL) 10) = false.
Proof.
  split; [reflexivity|]. split; [discriminate|].
  split; [vm_compute; find_in|].
  split; [vm_compute; reflexivity|].
  split; [vm_compute; find_in|].
  vm_compute; reflexivity.
Qed.

(** C4, amended: when [esp_https_ota_finish] is called and answers anything
    but [ESP_ERR_OTA_VALIDATE_FAILED] (an error as well as [ESP_OK]), the
    task does not look at the answer: nothing is logged about it, and the
    task goes on to [esp_restart()]. *)
Theorem finish_result_is_ignored (p : platform) (fuel : nat) :
  In ev_esp_https_ota_finish (events p fuel) ->
  finish_result p <> ESP_ERR_OTA_VALIDATE_FAILED ->
  ends_in p fuel = Some Restarted /\
  exists pre,
    events p fuel =
      pre ++ [ev_esp_https_ota_finish;
              ev_log ESP_LOG_INFO "Prepare to restart system!";
              ev_esp_restart].
Proof.
  paths p fuel; loop_facts; intros Hfin Hres.
  all: try (exfalso; in_hyp Hfin; fail).
  all: try (exfalso; apply Hres; now apply Z.eqb_eq).
  all: split; [reflexivity|]; eexists; apply snoc3.
Qed.

Lemma finish_result_is_ignored_witness :
  ends_in (update_available ESP_FAIL) 10 = Some Restarted /\
  exists pre,
    events (update_available ESP_FAIL) 10 =
      pre ++ [ev_esp_https_ota_finish;
              ev_log ESP_LOG_INFO "Prepare to restart system!";
              ev_esp_restart].
Proof.
  apply (finish_result_is_ignored (update_available ESP_FAIL) 10).
  - vm_compute. find_in.
  - discriminate.
Defined.

(** C5: once the download loop is entered, [esp_https_ota_perform] is called
    until an answer is not "in progress" and never again ([n] answers in
    progress, then one that is not: [n + 1] calls in the whole run);
    [esp_https_ota_finish] is called if and only if that last answer is
    [ESP_OK] and the data is complete; otherwise the task logs the download
    error, aborts the session and deletes itself. *)
Theorem download_loop_then_check (p : platform) (fuel n : nat) :
  (forall i, (i < n)%nat -> perform_results p i = ESP_ERR_HTTPS_OTA_IN_PROGRESS) ->
  perform_results p n <> ESP_ERR_HTTPS_OTA_IN_PROGRESS ->
  (n < fuel)%nat ->
  In ev_esp_https_ota_perform (events p fuel) ->
  perform_calls (events p fuel) = S n /\
  (In ev_esp_https_ota_finish (events p fuel) <->
     perform_results p n = ESP_OK /\ complete_data_received p = true) /\
  (~ (perform_results p n = ESP_OK /\ complete_data_received p = true) ->
   ends_in p fuel = Some TaskDeleted /\
   exists pre,
     events p fuel =
       pre ++ [ev_log ESP_LOG_ERROR "Download error (%u)";
               ev_esp_https_ota_abort (snd (begin_result p));
               ev_log ESP_LOG_ERROR "upgrade failed";
               ev_log ESP_LOG_INFO "Exiting task ..";
               ev_vTaskDelete]).
Proof.
  intros Hfirst Hlast Hfuel.
  paths p fuel; loop_facts; intros Hin.
  all: try (exfalso; in_hyp Hin; fail).
  all: try (exfalso; apply Hlast; apply (Hbusy n Hfuel); fail).
  all: clear Hin.
  all: assert (rounds = n) as -> by
         (eapply (first_answer_unique (perform_results p)); eassumption).
  all: cbn [Nat.add fst snd] in *.
  all: split;
         [repeat rewrite perform_calls_app; rewrite perform_calls_polling;
          cbv [perform_calls filter is_perform List.length]; lia|].
  all: split; [split|].
  all: repeat match goal with
       | H : (_ =? ESP_OK) = true |- _ => apply Z.eqb_eq in H
       | H : (_ =? ESP_OK) = false |- _ => apply Z.eqb_neq in H
       end.
  all: try (let H := fresh in intro H; exfalso; in_hyp H; fail).
  all: try (intros [? ?]; exfalso; (congruence || discriminate); fail).
  all: try (intros _; split; [assumption|reflexivity]).
  all: try (intros _; find_in).
  all: try (let H := fresh in intro H; exfalso; apply H; split; [assumption|reflexivity]).
  all: intros _; split; [reflexivity|]; eexists; apply snoc5.
Qed.

Lemma download_loop_then_check_witness :
  perform_calls (events mid_stream_failure 10) = 2%nat /\
  (In ev_esp_https_ota_finish (events mid_stream_failure 10) <->
     perform_results mid_stream_failure 1 = ESP_OK /\
     complete_data_received mid_stream_failure = true) /\
  (~ (perform_results mid_stream_failure 1 = ESP_OK /\
      complete_data_received mid_stream_failure = true) ->
   ends_in mid_stream_failure 10 = Some TaskDeleted /\
   exists pre,
     events mid_stream_failure 10 =
       pre ++ [ev_log ESP_LOG_ERROR "Download error (%u)";
               ev_esp_https_ota_abort (snd (begin_result mid_stream_failure));
               ev_log ESP_LOG_ERROR "upgrade failed";
               ev_log ESP_LOG_INFO "Exiting task ..";
               ev_vTaskDelete]).
Proof.
  apply (download_loop_then_check mid_stream_failure 10 1).
  - intros i Hi. assert (i = 0%nat) as -> by lia. reflexivity.
  - vm_compute. discriminate.
  - lia.
  - vm_compute. find_in.
Defined.

(** The version comparison, on what the three locals hold when it is made. *)
Lemma versions_compared_on_locals (p : platform) (fuel : nat) :
  In ev_esp_ota_get_last_invalid_partition (events p fuel) ->
  (same_as_invalid p = true ->
   ends_in p fuel = Some TaskDeleted /\
   exists pre,
     events p fuel =
       pre ++ [ev_versions_match (invalid_local p) (new_local p);
               ev_log ESP_LOG_WARN "Version on server is the same as invalid version (%s)";
               ev_esp_https_ota_abort (snd (begin_result p));
               ev_log ESP_LOG_ERROR "upgrade failed";
               ev_log ESP_LOG_INFO "Exiting task ..";
               ev_vTaskDelete] /\
     (forall a b, ~ In (ev_versions_match a b) pre) /\
     ~ In ev_esp_https_ota_perform pre) /\
  (same_as_invalid p = false -> same_as_running p = true ->
   ends_in p fuel = Some TaskDeleted /\
   exists pre,
     events p fuel =
       pre ++ [ev_versions_match (new_local p) (running_local p);
               ev_log ESP_LOG_INFO "No update available";
               ev_esp_https_ota_abort (snd (begin_result p));
               ev_log ESP_LOG_ERROR "upgrade failed";
               ev_log ESP_LOG_INFO "Exiting task ..";
               ev_vTaskDelete] /\
     ~ In ev_esp_https_ota_perform pre) /\
  (In (ev_log ESP_LOG_WARN "Downloading OTA update ..") (events p fuel) <->
   same_as_invalid p = false /\ same_as_running p = false).
Proof.
  unfold same_as_invalid, same_as_running, new_local, running_local, invalid_local, filled.
  paths p fuel; loop_facts; intros Hget.
  all: try (exfalso; in_hyp Hget; fail).
  all: clear Hget.
  all: cbv beta iota delta [is_null negb andb fst snd].
  all: repeat match goal with
       | H : _versions_match _ _ = _ |- _ => rewrite H; clear H
       end.
  all: split; [|split]; [intros HX|intros HX HY|split; [intros Hin|intros [HX HY]]].
  all: try discriminate HX; try discriminate HY.
  all: try (exfalso; in_hyp Hin; fail).
  all: try (split; reflexivity).
  all: try (find_in; fail).
  all: split; [reflexivity|]; eexists; (split; [apply snoc6|]).
  all: try (split; [intros a b|]); not_in.
Qed.

(** A local holds the descriptor that was read into it. *)
Lemma filled_read (d junk : esp_app_desc_t) :
  filled (ESP_OK, d) junk = Initialised d.
Proof. reflexivity. Qed.

Lemma same_as_invalid_read (p : platform) (q : esp_partition_t)
    (invalid remote : esp_app_desc_t) :
  img_desc_result p = (ESP_OK, remote) ->
  last_invalid_partition p = Some q ->
  partition_description p (Some q) = (ESP_OK, invalid) ->
  invalid_local p = Initialised invalid /\
  same_as_invalid p = _versions_match invalid remote.
Proof.
  intros Hremote Hq Hinvalid.
  unfold same_as_invalid, invalid_local, new_local.
  rewrite Hq, Hinvalid, Hremote, !filled_read. split; reflexivity.
Qed.

Lemma same_as_running_read (p : platform) (remote running : esp_app_desc_t) :
  img_desc_result p = (ESP_OK, remote) ->
  partition_description p (running_partition p) = (ESP_OK, running) ->
  running_local p = Initialised running /\
  same_as_running p = _versions_match remote running.
Proof.
  intros Hremote Hrunning.
  unfold same_as_running, running_local, new_local.
  rewrite Hrunning, Hremote, !filled_read. split; reflexivity.
Qed.

(** The last invalid version does not stand in the way: there is no last
    invalid partition, or its descriptor was read and differs. *)
Lemma same_as_invalid_differs (p : platform) (remote : esp_app_desc_t) :
  img_desc_result p = (ESP_OK, remote) ->
  last_invalid_partition p = None \/
  (exists q invalid,
     last_invalid_partition p = Some q /\
     partition_description p (Some q) = (ESP_OK, invalid) /\
     _versions_match invalid remote = false) ->
  same_as_invalid p = false.
Proof.
  intros Hremote [Hnone|(q & invalid & Hq & Hinvalid & Hdiff)].
  - unfold same_as_invalid. now rewrite Hnone.
  - destruct (same_as_invalid_read p q invalid remote Hremote Hq Hinvalid) as (_ & ->).
    exact Hdiff.
Qed.

(** C6: [remote] is the descriptor fetched from the server, and the
    versions are loaded.  When there is a last invalid partition and its
    descriptor was read, the first call of the comparator is on that
    descriptor and the remote one: on a match the task warns that the server
    has the invalid version, aborts the session and deletes itself, with no
    further comparison and no download.  When there is no last invalid
    partition, or its descriptor was read and does not match, the remote
    descriptor is compared with the one read from the running partition: on
    a match the task logs "No update available", aborts the session and
    deletes itself without a download; otherwise the download is started.
    The download is started only when no descriptor that was read matched
    the remote one. *)
Theorem versions_compared_invalid_first (p : platform) (fuel : nat)
    (remote : esp_app_desc_t) :
  In ev_esp_ota_get_last_invalid_partition (events p fuel) ->
  img_desc_result p = (ESP_OK, remote) ->
  (forall q invalid,
     last_invalid_partition p = Some q ->
     partition_description p (Some q) = (ESP_OK, invalid) ->
     _versions_match invalid remote = true ->
     ends_in p fuel = Some TaskDeleted /\
     exists pre,
       events p fuel =
         pre ++ [ev_versions_match (Initialised invalid) (Initialised remote);
                 ev_log ESP_LOG_WARN
                   "Version on server is the same as invalid version (%s)";
                 ev_esp_https_ota_abort (snd (begin_result p));
                 ev_log ESP_LOG_ERROR "upgrade failed";
                 ev_log ESP_LOG_INFO "Exiting task ..";
                 ev_vTaskDelete] /\
       (forall a b, ~ In (ev_versions_match a b) pre) /\
       ~ In ev_esp_https_ota_perform pre) /\
  (forall running,
     partition_description p (running_partition p) = (ESP_OK, running) ->
     (last_invalid_partition p = None \/
      exists q invalid,
        last_invalid_partition p = Some q /\
        partition_description p (Some q) = (ESP_OK, invalid) /\
        _versions_match invalid remote = false) ->
     (_versions_match remote running = true ->
      ends_in p fuel = Some TaskDeleted /\
      exists pre,
        events p fuel =
          pre ++ [ev_versions_match (Initialised remote) (Initialised running);
                  ev_log ESP_LOG_INFO "No update available";
                  ev_esp_https_ota_abort (snd (begin_result p));
                  ev_log ESP_LOG_ERROR "upgrade failed";
                  ev_log ESP_LOG_INFO "Exiting task ..";
                  ev_vTaskDelete] /\
        ~ In ev_esp_https_ota_perform pre) /\
     (_versions_match remote running = false ->
      In (ev_log ESP_LOG_WARN "Downloading OTA update ..") (events p fuel))) /\
  (In (ev_log ESP_LOG_WARN "Downloading OTA update ..") (events p fuel) ->
   (forall q invalid,
      last_invalid_partition p = Some q ->
      partition_description p (Some q) = (ESP_OK, invalid) ->
      _versions_match invalid remote = false) /\
   (forall running,
      partition_description p (running_partition p) = (ESP_OK, running) ->
      _versions_match remote running = false)).
Proof.
  intros Hget Hremote.
  destruct (versions_compared_on_locals p fuel Hget) as (Hinv & Hrun & Hdl).
  assert (new_local p = Initialised remote) as Hnew
    by (unfold new_local; now rewrite Hremote).
  split; [|split].
  - intros q invalid Hq Hinvalid Hsame.
    destruct (same_as_invalid_read p q invalid remote Hremote Hq Hinvalid) as (Hloc & Heq).
    rewrite Heq, Hloc, Hnew in Hinv. exact (Hinv Hsame).
  - intros running Hrunning Hdiff.
    destruct (same_as_running_read p remote running Hremote Hrunning) as (Hloc & Heq).
    pose proof (same_as_invalid_differs p remote Hremote Hdiff) as Hno.
    rewrite Heq, Hloc, Hnew in Hrun. rewrite Heq in Hdl.
    split.
    + intros Hsame. exact (Hrun Hno Hsame).
    + intros Hother. apply Hdl. split; assumption.
  - intros Hin. apply Hdl in Hin. destruct Hin as (Hno & Hother). split.
    + intros q invalid Hq Hinvalid.
      destruct (same_as_invalid_read p q invalid remote Hremote Hq Hinvalid) as (_ & Heq).
      now rewrite <- Heq.
    + intros running Hrunning.
      destruct (same_as_running_read p remote running Hremote Hrunning) as (_ & Heq).
      now rewrite <- Heq.
Qed.

Lemma versions_compared_invalid_first_witness :
  (ends_in known_bad 10 = Some TaskDeleted /\
   exists pre,
     events known_bad 10 =
       pre ++ [ev_versions_match (Initialised (fw "2.0")) (Initialised (fw "2.0"));
               ev_log ESP_LOG_WARN
                 "Version on server is the same as invalid version (%s)";
               ev_esp_https_ota_abort (snd (begin_result known_bad));
               ev_log ESP_LOG_ERROR "upgrade failed";
               ev_log ESP_LOG_INFO "Exiting task ..";
               ev_vTaskDelete] /\
     (forall a b, ~ In (ev_versions_match a b) pre) /\
     ~ In ev_esp_https_ota_perform pre) /\
  (ends_in (up_to_date (Some ota_0)) 10 = Some TaskDeleted /\
   exists pre,
     events (up_to_date (Some ota_0)) 10 =
       pre ++ [ev_versions_match (Initialised (fw "1.0")) (Initialised (fw "1.0"));
               ev_log ESP_LOG_INFO "No update available";
               ev_esp_https_ota_abort (snd (begin_result (up_to_date (Some ota_0))));
               ev_log ESP_LOG_ERROR "upgrade failed";
               ev_log ESP_LOG_INFO "Exiting task ..";
               ev_vTaskDelete] /\
     ~ In ev_esp_https_ota_perform pre) /\
  In (ev_log ESP_LOG_WARN "Downloading OTA update ..")
     (events (update_available ESP_OK) 10).
Proof.
  split; [|split].
  - pose proof (versions_compared_invalid_first known_bad 10 (fw "2.0")) as H.
    assert (In ev_esp_ota_get_last_invalid_partition (events known_bad 10)) as Hget
      by (vm_compute; find_in).
    specialize (H Hget eq_refl). destruct H as (H & _).
    specialize (H ota_1 (fw "2.0") eq_refl eq_refl).
    assert (_versions_match (fw "2.0") (fw "2.0") = true) as Hsame
      by (vm_compute; reflexivity).
    exact (H Hsame).
  - pose proof (versions_compared_invalid_first (up_to_date (Some ota_0)) 10 (fw "1.0"))
      as H.
    assert (In ev_esp_ota_get_last_invalid_partition (events (up_to_date (Some ota_0)) 10))
      as Hget by (vm_compute; find_in).
    specialize (H Hget eq_refl). destruct H as (_ & H & _).
    specialize (H (fw "1.0") eq_refl (or_introl eq_refl)). destruct H as (H & _).
    assert (_versions_match (fw "1.0") (fw "1.0") = true) as Hsame
      by (vm_compute; reflexivity).
    exact (H Hsame).
  - pose proof (versions_compared_invalid_first (update_available ESP_OK) 10 (fw "2.0"))
      as H.
    assert (In ev_esp_ota_get_last_invalid_partition (events (update_available ESP_OK) 10))
      as Hget by (vm_compute; find_in).
    specialize (H Hget eq_refl). destruct H as (_ & H & _).
    specialize (H (fw "1.0") eq_refl (or_introl eq_refl)). destruct H as (_ & H).
    assert (_versions_match (fw "2.0") (fw "1.0") = false) as Hother
      by (vm_compute; reflexivity).
    exact (H Hother).
Defined.

(** C8 fails on the code.  When the running partition carries no descriptor,
    [running_app_info] is never written and the comparator is called on it
    all the same; likewise for [invalid_app_info] when there is a last
    invalid partition whose descriptor cannot be read. *)
Theorem unset_descriptor_reaches_comparator :
  (fst (partition_description untagged_running (running_partition untagged_running))
     <> ESP_OK /\
   In (ev_versions_match (Initialised (fw "2.0")) (Uninitialised junk))
      (events untagged_running 10)) /\
  (last_invalid_partition untagged_invalid <> None /\
   fst (partition_description untagged_invalid (last_invalid_partition untagged_invalid))
     <> ESP_OK /\
   In (ev_versions_match (Uninitialised junk) (Initialised (fw "2.0")))
      (events untagged_invalid 10)).
Proof.
  split.
  - split; [vm_compute; discriminate|]. vm_compute. find_in.
  - split; [discriminate|]. split; [vm_compute; discriminate|]. vm_compute. find_in.
Qed.



End TaskFacts.

(** ** More on the comparator *)

Module ComparatorLaws.
Import Descriptor Scenarios Observing DescriptorFacts.

Lemma versions_match_strings (a b : esp_app_desc_t) :
  _versions_match a b = true <->
  c_string sizeof_project_name (project_name a)
    = c_string sizeof_project_name (project_name b) /\
  c_string sizeof_version (version a) = c_string sizeof_version (version b) /\
  c_string sizeof_date (date a) = c_string sizeof_date (date b) /\
  c_string sizeof_time (time a) = c_string sizeof_time (time b).
Proof.
  unfold _versions_match.
  rewrite !andb_true_iff, !Z.eqb_eq, !strncmp_zero_iff. tauto.
Qed.

Lemma all_nul_cons (c : byte) (t : list byte) :
  all_nul (c :: t) = true <-> c = x00 /\ all_nul t = true.
Proof.
  unfold all_nul. cbn [forallb]. rewrite andb_true_iff.
  destruct (byte_eqb_spec x00 c) as [<-|Hne]; intuition congruence.
Qed.

Lemma all_nul_eq (s1 : list byte) : forall s2,
  all_nul s1 = true -> all_nul s2 = true ->
  List.length s1 = List.length s2 -> s1 = s2.
Proof.
  induction s1 as [|c1 t1 IH]; intros [|c2 t2] H1 H2 Hlen; try discriminate Hlen.
  - reflexivity.
  - apply all_nul_cons in H1, H2. destruct H1 as (-> & H1), H2 as (-> & H2).
    f_equal. apply IH; auto.
Qed.

(** On arrays of [n] bytes that are NUL from the terminator on, the string
    within [n] bytes determines the array. *)
Lemma c_string_inj (n : nat) : forall s1 s2,
  List.length s1 = n -> List.length s2 = n ->
  nul_padded s1 = true -> nul_padded s2 = true ->
  c_string n s1 = c_string n s2 -> s1 = s2.
Proof.
  induction n as [|n IH]; intros [|c1 t1] [|c2 t2] L1 L2 P1 P2 E;
    try discriminate L1; try discriminate L2; [reflexivity|].
  cbn [List.length nul_padded c_string] in L1, L2, P1, P2, E.
  destruct (byte_eqb_spec c1 x00) as [->|N1], (byte_eqb_spec c2 x00) as [->|N2];
    try discriminate E.
  - f_equal. apply all_nul_eq; auto. lia.
  - injection E as -> E. f_equal. apply IH; auto.
Qed.

(** X1: [_versions_match] is reflexive and transitive: with its symmetry, an
    equivalence on descriptors. *)
Theorem versions_match_equivalence :
  (forall a, _versions_match a a = true) /\
  (forall a b c,
     _versions_match a b = true -> _versions_match b c = true ->
     _versions_match a c = true).
Proof.
  split.
  - intros a. apply versions_match_strings. repeat split.
  - intros a b c Hab Hbc.
    apply versions_match_strings in Hab, Hbc. apply versions_match_strings.
    destruct Hab as (A1 & A2 & A3 & A4), Hbc as (B1 & B2 & B3 & B4).
    repeat split; etransitivity; eassumption.
Qed.

Lemma versions_match_equivalence_witness :
  _versions_match fw_1_A (fw "1") = true.
Proof.
  apply (proj2 versions_match_equivalence fw_1_A fw_1_B (fw "1"));
    vm_compute; reflexivity.
Defined.

(** X2: on descriptors whose four arrays have their declared size and are
    NUL from the terminator to the end, [_versions_match] is equality of
    the descriptors: the fields match byte for byte over their whole
    capacity. *)
Theorem versions_match_on_zero_filled (a b : esp_app_desc_t) :
  zero_filled a -> zero_filled b ->
  (_versions_match a b = true <-> a = b).
Proof.
  intros ((Lv & Ln & Lt & Ld) & Pn & Pv & Pd & Pt)
         ((Lv' & Ln' & Lt' & Ld') & Pn' & Pv' & Pd' & Pt').
  split.
  - intros H. apply versions_match_strings in H.
    destruct H as (Hn & Hv & Hd & Ht).
    apply c_string_inj in Hn, Hv, Hd, Ht; auto.
    destruct a, b. cbn in *. congruence.
  - intros <-. apply versions_match_strings. repeat split.
Qed.

Lemma versions_match_on_zero_filled_witness :
  _versions_match (fw "1.0") (fw "2.0") = true <-> fw "1.0" = fw "2.0".
Proof.
  apply (versions_match_on_zero_filled (fw "1.0") (fw "2.0"));
    (split; [apply mk_desc_well_formed|repeat split; vm_compute; reflexivity]).
Defined.

End ComparatorLaws.

(** ** More on the task *)

Module TaskLaws.
Import Descriptor Platform Task Scenarios Observing TaskFacts.
Local Open Scope string_scope.
Local Open Scope Z_scope.
Local Open Scope list_scope.

Lemma calls_app (kind : event -> bool) (a b : list event) :
  calls kind (a ++ b) = (calls kind a + calls kind b)%nat.
Proof.
  unfold calls. now rewrite filter_app, length_app.
Qed.

Lemma filter_polling (kind : event -> bool) (n : nat) :
  kind ev_esp_https_ota_perform = false ->
  kind ev_esp_https_ota_get_image_len_read = false ->
  kind (ev_log ESP_LOG_INFO "Bytes read: %d") = false ->
  filter kind (polling n) = [].
Proof.
  intros H1 H2 H3. induction n as [|n IH]; [reflexivity|].
  change (polling (S n)) with
    ([ev_esp_https_ota_perform; ev_esp_https_ota_get_image_len_read;
      ev_log ESP_LOG_INFO "Bytes read: %d"] ++ polling n).
  rewrite filter_app, IH. cbn [filter]. now rewrite H1, H2, H3.
Qed.

(** The calls of a kind the loop does not make are counted in a trace. *)
Ltac count_calls :=
  unfold calls;
  cbn [app filter is_begin is_abort is_finish List.length];
  repeat rewrite filter_app;
  rewrite ?filter_polling by reflexivity;
  cbn [app filter is_begin is_abort is_finish List.length];
  lia.

(** X3: the device is restarted exactly when [esp_https_ota_finish] has
    been called: the run ends restarted if and only if the trace holds a
    call of finish, and then [esp_restart] is in the trace. *)
Theorem restart_iff_finish (p : platform) (fuel : nat) :
  (ends_in p fuel = Some Restarted <-> In ev_esp_https_ota_finish (events p fuel)) /\
  (In ev_esp_restart (events p fuel) <-> In ev_esp_https_ota_finish (events p fuel)).
Proof.
  paths p fuel; loop_facts.
  all: split; split; intros H.
  all: try discriminate H.
  all: try (exfalso; in_hyp H; fail).
  all: try reflexivity.
  all: find_in.
Qed.

Lemma restart_iff_finish_witness :
  ends_in (update_available ESP_OK) 10 = Some Restarted.
Proof.
  apply (proj1 (restart_iff_finish (update_available ESP_OK) 10)).
  vm_compute. find_in.
Defined.

(** X4: a run opens at most one session and closes it at most once, by
    abort or by finish, never both; when begin succeeded and the run ends by
    [vTaskDelete] or [esp_restart], the session was closed exactly once. *)
Theorem session_closed_once (p : platform) (fuel : nat) :
  (calls is_begin (events p fuel) <= 1)%nat /\
  (calls is_abort (events p fuel) + calls is_finish (events p fuel) <= 1)%nat /\
  (ends_in p fuel = Some TaskDeleted \/ ends_in p fuel = Some Restarted ->
   fst (begin_result p) = ESP_OK ->
   (calls is_abort (events p fuel) + calls is_finish (events p fuel) = 1)%nat).
Proof.
  paths p fuel; loop_facts.
  all: split; [count_calls|]; split; [count_calls|].
  all: intros [H|H] Hb; try discriminate H.
  all: try (rewrite Hb in *; discriminate).
  all: count_calls.
Qed.

Lemma session_closed_once_witness :
  (calls is_abort (events known_bad 10) + calls is_finish (events known_bad 10) = 1)%nat.
Proof.
  apply (proj2 (proj2 (session_closed_once known_bad 10))).
  - left. vm_compute. reflexivity.
  - reflexivity.
Defined.

(** X5: [esp_https_ota_perform] is called only when begin answered
    [ESP_OK] with a handle, the remote descriptor was fetched, the remote
    version matched neither the invalid nor the running one, and there is
    a next update partition. *)
Theorem download_preconditions (p : platform) (fuel : nat) :
  In ev_esp_https_ota_perform (events p fuel) ->
  fst (begin_result p) = ESP_OK /\
  snd (begin_result p) <> None /\
  fst (img_desc_result p) = ESP_OK /\
  same_as_invalid p = false /\
  same_as_running p = false /\
  next_update_partition p <> None.
Proof.
  unfold same_as_invalid, same_as_running, new_local, running_local, invalid_local, filled.
  paths p fuel; loop_facts; intros Hin.
  all: try (exfalso; in_hyp Hin; fail).
  all: clear Hin.
  all: cbv beta iota delta [is_null negb andb fst snd].
  all: repeat match goal with
       | H : _versions_match _ _ = _ |- _ => rewrite H; clear H
       | H : (_ =? ESP_OK) = true |- _ => apply Z.eqb_eq in H; rewrite H
       end.
  all: repeat split; try reflexivity; discriminate.
Qed.

Lemma download_preconditions_witness :
  fst (begin_result (update_available ESP_OK)) = ESP_OK /\
  snd (begin_result (update_available ESP_OK)) <> None /\
  fst (img_desc_result (update_available ESP_OK)) = ESP_OK /\
  same_as_invalid (update_available ESP_OK) = false /\
  same_as_running (update_available ESP_OK) = false /\
  next_update_partition (update_available ESP_OK) <> None.
Proof.
  apply (download_preconditions (update_available ESP_OK) 10).
  vm_compute. find_in.
Defined.

(** The paths of a run about which [know] tells something beforehand. *)
Ltac paths_knowing p fuel know :=
  let r := fresh "r" in
  let Hr := fresh "Hr" in
  unfold events, ends_in in *;
  remember (run p fuel) as r eqn:Hr;
  exec_in Hr; know Hr; repeat step_in Hr; subst r;
  cbv beta iota zeta delta [final_state outcome trace performs] in *.

(** X6: when the session cannot be opened the run ends at once by
    [vTaskDelete].  After a begin that answers an error, only "Begin failed"
    is logged; after a begin that answers [ESP_OK] and leaves the handle
    NULL, [esp_https_ota_abort] is called on the NULL handle and "No update
    found" is logged. *)
Theorem connect_failure_ends_run (p : platform) (fuel : nat) :
  In ev_esp_https_ota_begin (events p fuel) ->
  (fst (begin_result p) <> ESP_OK ->
   ends_in p fuel = Some TaskDeleted /\
   exists pre,
     events p fuel =
       pre ++ [ev_esp_https_ota_begin;
               ev_log ESP_LOG_ERROR "Begin failed";
               ev_log ESP_LOG_INFO "Exiting task ..";
               ev_vTaskDelete]) /\
  (begin_result p = (ESP_OK, None) ->
   ends_in p fuel = Some TaskDeleted /\
   exists pre,
     events p fuel =
       pre ++ [ev_esp_https_ota_begin;
               ev_esp_https_ota_abort None;
               ev_log ESP_LOG_ERROR "upgrade failed";
               ev_log ESP_LOG_ERROR "No update found";
               ev_log ESP_LOG_INFO "Exiting task ..";
               ev_vTaskDelete]).
Proof.
  intros Hin. split.
  - intros Hne. revert Hin.
    destruct (begin_result p) as [err handle] eqn:Hb. cbn [fst] in Hne.
    apply Z.eqb_neq in Hne.
    paths_knowing p fuel
      ltac:(fun H => rewrite Hb in H; exec_in H; rewrite Hne in H; exec_in H).
    all: intros Hin; try (exfalso; in_hyp Hin; fail).
    all: split; [reflexivity|]; eexists; apply snoc4.
  - intros Hb. revert Hin.
    paths_knowing p fuel
      ltac:(fun H => rewrite Hb in H; exec_in H;
                     change (ESP_OK =? ESP_OK) with true in H; exec_in H).
    all: intros Hin; try (exfalso; in_hyp Hin; fail).
    all: split; [reflexivity|]; eexists; apply snoc6.
Qed.

Lemma connect_failure_ends_run_witness :
  ends_in begin_fails 10 = Some TaskDeleted /\
  exists pre,
    events begin_fails 10 =
      pre ++ [ev_esp_https_ota_begin;
              ev_log ESP_LOG_ERROR "Begin failed";
              ev_log ESP_LOG_INFO "Exiting task ..";
              ev_vTaskDelete].
Proof.
  apply (connect_failure_ends_run begin_fails 10).
  - vm_compute. find_in.
  - discriminate.
Defined.

(** X7: when the remote descriptor cannot be fetched, a build with
    assertions ends in the [abort()] of [ESP_ERROR_CHECK]: the run panics
    and [esp_https_ota_abort] is not called.  A build without them cleans
    up and ends by [vTaskDelete]. *)
Theorem descriptor_fetch_failure (p : platform) (fuel : nat) :
  In ev_esp_https_ota_get_img_desc (events p fuel) ->
  fst (img_desc_result p) <> ESP_OK ->
  (assertions_enabled p = true ->
   ends_in p fuel = Some Panicked /\
   calls is_abort (events p fuel) = 0%nat /\
   exists pre,
     events p fuel =
       pre ++ [ev_esp_https_ota_get_img_desc;
               ev_log ESP_LOG_ERROR "Can't get server version (%02X)";
               ev_abort]) /\
  (assertions_enabled p = false ->
   ends_in p fuel = Some TaskDeleted /\
   exists pre,
     events p fuel =
       pre ++ [ev_esp_https_ota_get_img_desc;
               ev_log ESP_LOG_ERROR "Can't get server version (%02X)";
               ev_esp_https_ota_abort (snd (begin_result p));
               ev_log ESP_LOG_ERROR "upgrade failed";
               ev_log ESP_LOG_INFO "Exiting task ..";
               ev_vTaskDelete]).
Proof.
  intros Hin Hne. revert Hin.
  destruct (img_desc_result p) as [err d] eqn:Hd. cbn [fst] in Hne.
  apply Z.eqb_neq in Hne.
  paths_knowing p fuel
    ltac:(fun H => rewrite Hd in H; exec_in H; rewrite Hne in H; exec_in H).
  all: intros Hin; try (exfalso; in_hyp Hin; fail).
  all: cbn [fst snd]; split; intros Ha; try discriminate Ha.
  all: split; [reflexivity|].
  all: try (split; [count_calls|]).
  all: eexists; (apply snoc3 || apply snoc6).
Qed.

Lemma descriptor_fetch_failure_witness :
  ends_in descriptor_unavailable 10 = Some Panicked /\
  calls is_abort (events descriptor_unavailable 10) = 0%nat /\
  exists pre,
    events descriptor_unavailable 10 =
      pre ++ [ev_esp_https_ota_get_img_desc;
              ev_log ESP_LOG_ERROR "Can't get server version (%02X)";
              ev_abort].
Proof.
  apply (descriptor_fetch_failure descriptor_unavailable 10).
  - vm_compute. find_in.
  - discriminate.
  - reflexivity.
Defined.

Lemma filter_len_read_polling (n : nat) :
  List.length (filter is_len_read (polling n)) = n.
Proof.
  induction n as [|n IH]; [reflexivity|].
  change (polling (S n)) with
    ([ev_esp_https_ota_perform; ev_esp_https_ota_get_image_len_read;
      ev_log ESP_LOG_INFO "Bytes read: %d"] ++ polling n).
  rewrite filter_app, length_app, IH. reflexivity.
Qed.

(** X8: in a download that ends after [n] answers "in progress", the bytes
    read are asked for and logged once after each of these answers, [n]
    times in the run, and [esp_https_ota_is_complete_data_received] is
    asked if and only if the last answer is [ESP_OK]: after a failed
    download the completeness is not looked at. *)
Theorem progress_and_completeness_queries (p : platform) (fuel n : nat) :
  (forall i, (i < n)%nat -> perform_results p i = ESP_ERR_HTTPS_OTA_IN_PROGRESS) ->
  perform_results p n <> ESP_ERR_HTTPS_OTA_IN_PROGRESS ->
  (n < fuel)%nat ->
  In ev_esp_https_ota_perform (events p fuel) ->
  calls is_len_read (events p fuel) = n /\
  (In ev_esp_https_ota_is_complete_data_received (events p fuel) <->
   perform_results p n = ESP_OK).
Proof.
  intros Hfirst Hlast Hfuel.
  paths p fuel; loop_facts; intros Hin.
  all: try (exfalso; in_hyp Hin; fail).
  all: try (exfalso; apply Hlast; apply (Hbusy n Hfuel); fail).
  all: clear Hin.
  all: assert (rounds = n) as -> by
         (eapply (first_answer_unique (perform_results p)); eassumption).
  all: cbn [Nat.add] in *.
  all: split;
         [unfold calls; cbn [app filter is_len_read List.length];
          repeat rewrite filter_app; repeat rewrite length_app;
          rewrite filter_len_read_polling;
          cbn [app filter is_len_read List.length]; lia|].
  all: repeat match goal with
       | H : (perform_results _ _ =? ESP_OK) = true |- _ => apply Z.eqb_eq in H
       | H : (perform_results _ _ =? ESP_OK) = false |- _ => apply Z.eqb_neq in H
       end.
  all: split; intros H.
  all: try assumption; try contradiction.
  all: try (exfalso; in_hyp H; fail).
  all: find_in.
Qed.

Lemma progress_and_completeness_queries_witness :
  calls is_len_read (events mid_stream_failure 10) = 1%nat /\
  (In ev_esp_https_ota_is_complete_data_received (events mid_stream_failure 10) <->
   perform_results mid_stream_failure 1 = ESP_OK).
Proof.
  apply (progress_and_completeness_queries mid_stream_failure 10 1).
  - intros i Hi. assert (i = 0%nat) as -> by lia. reflexivity.
  - vm_compute. discriminate.
  - lia.
  - vm_compute. find_in.
Defined.

(** X9: the task puts no bound of its own on the download.  While every
    call of [esp_https_ota_perform] answers "in progress" the loop goes on:
    whatever the bound [fuel] of the model, a run that started the download
    is still in the loop after [fuel] calls, with the session neither
    aborted nor finished and the device not restarted. *)
Theorem download_never_gives_up (p : platform) (fuel : nat) :
  (forall i, perform_results p i = ESP_ERR_HTTPS_OTA_IN_PROGRESS) ->
  next_update_partition p <> None ->
  In (ev_log ESP_LOG_WARN "Downloading OTA update ..") (events p fuel) ->
  ends_in p fuel = None /\
  perform_calls (events p fuel) = fuel /\
  (calls is_abort (events p fuel) + calls is_finish (events p fuel) = 0)%nat.
Proof.
  intros Hbusy' Hnext.
  paths p fuel; loop_facts; intros Hin.
  all: try (exfalso; in_hyp Hin; fail).
  all: try congruence.
  all: try (exfalso; apply Hdone; apply Hbusy'; fail).
  all: clear Hin.
  all: split; [reflexivity|]; split;
         [repeat rewrite perform_calls_app; rewrite perform_calls_polling;
          cbv [perform_calls filter is_perform List.length]; lia
         |count_calls].
Qed.

Lemma download_never_gives_up_witness :
  ends_in stalled_download 25 = None /\
  perform_calls (events stalled_download 25) = 25%nat /\
  (calls is_abort (events stalled_download 25) +
   calls is_finish (events stalled_download 25) = 0)%nat.
Proof.
  apply (download_never_gives_up stalled_download 25).
  - reflexivity.
  - discriminate.
  - vm_compute. find_in.
Defined.

(** The loop in closed form: after [n] answers "in progress" the next one
    ends it, whatever the bound above [n]. *)
Lemma perform_loop_done (p : platform) (h : esp_https_ota_handle_t) (fuel : nat) :
  forall s n,
    (forall i, (i < n)%nat ->
       perform_results p (performs s + i) = ESP_ERR_HTTPS_OTA_IN_PROGRESS) ->
    perform_results p (performs s + n) <> ESP_ERR_HTTPS_OTA_IN_PROGRESS ->
    (n < fuel)%nat ->
    perform_loop p fuel h s =
      Ret (perform_results p (performs s + n))
          {| performs := performs s + S n;
             trace := trace s ++ polling n ++ [ev_esp_https_ota_perform] |}.
Proof.
  induction fuel as [|fuel IH]; intros s n Hbusy Hdone Hlt; [lia|].
  cbn [perform_loop]. unfold bind at 1. cbn [esp_https_ota_perform].
  destruct n as [|n].
  - rewrite Nat.add_0_r in Hdone. apply Z.eqb_neq in Hdone. rewrite Hdone.
    cbn [negb]. unfold ret. rewrite Nat.add_0_r, Nat.add_1_r. reflexivity.
  - pose proof (Hbusy 0%nat (Nat.lt_0_succ n)) as H0.
    rewrite Nat.add_0_r in H0. rewrite H0, Z.eqb_refl. cbn [negb].
    unfold bind at 1. cbn [esp_https_ota_get_image_len_read].
    unfold bind at 1. unfold ESP_LOGI, emit. cbn [performs trace].
    rewrite (IH _ n); cbn [performs trace].
    + f_equal; [f_equal; lia|]. f_equal; [lia|].
      rewrite <- !app_assoc. reflexivity.
    + intros i Hi. replace (S (performs s) + i)%nat with (performs s + S i)%nat by lia.
      apply Hbusy. lia.
    + replace (S (performs s) + n)%nat with (performs s + S n)%nat by lia. exact Hdone.
    + lia.
Qed.

(** While every answer is "in progress" the loop uses up the bound. *)
Lemma perform_loop_stalled (p : platform) (h : esp_https_ota_handle_t) (fuel : nat) :
  forall s,
    (forall i, (i < fuel)%nat ->
       perform_results p (performs s + i) = ESP_ERR_HTTPS_OTA_IN_PROGRESS) ->
    perform_loop p fuel h s =
      OutOfFuel {| performs := performs s + fuel;
                   trace := trace s ++ polling fuel |}.
Proof.
  induction fuel as [|fuel IH]; intros s Hbusy.
  - cbn. unfold out_of_fuel. rewrite Nat.add_0_r, app_nil_r. now destruct s.
  - cbn [perform_loop]. unfold bind at 1. cbn [esp_https_ota_perform].
    pose proof (Hbusy 0%nat (Nat.lt_0_succ fuel)) as H0.
    rewrite Nat.add_0_r in H0. rewrite H0, Z.eqb_refl. cbn [negb].
    unfold bind at 1. cbn [esp_https_ota_get_image_len_read].
    unfold bind at 1. unfold ESP_LOGI, emit. cbn [performs trace].
    rewrite IH; cbn [performs trace].
    + f_equal. f_equal; [lia|].
      rewrite <- !app_assoc. apply (f_equal (app (trace s))).
      rewrite <- (app_nil_r (polling fuel)), <- (app_nil_r (polling (S fuel))).
      apply polling_S.
    + intros i Hi. replace (S (performs s) + i)%nat with (performs s + S i)%nat by lia.
      apply Hbusy. lia.
Qed.

(** The loop either ends after some [n] rounds or uses up the bound. *)
Lemma perform_loop_cases (p : platform) (h : esp_https_ota_handle_t) (fuel : nat)
    (s : state) :
  (exists n,
     (n < fuel)%nat /\
     (forall i, (i < n)%nat ->
        perform_results p (performs s + i) = ESP_ERR_HTTPS_OTA_IN_PROGRESS) /\
     perform_results p (performs s + n) <> ESP_ERR_HTTPS_OTA_IN_PROGRESS /\
     perform_loop p fuel h s =
       Ret (perform_results p (performs s + n))
           {| performs := performs s + S n;
              trace := trace s ++ polling n ++ [ev_esp_https_ota_perform] |}) \/
  ((forall i, (i < fuel)%nat ->
      perform_results p (performs s + i) = ESP_ERR_HTTPS_OTA_IN_PROGRESS) /\
   perform_loop p fuel h s =
     OutOfFuel {| performs := performs s + fuel;
                  trace := trace s ++ polling fuel |}).
Proof.
  pose proof (perform_loop_result p h fuel s) as H.
  destruct (perform_loop p fuel h s) as [err s'|t s'|s'] eqn:E.
  - left. destruct H as (n & Hn & -> & Hdone & Hbusy & _).
    exists n. split; [exact Hn|]. split; [exact Hbusy|]. split; [exact Hdone|].
    rewrite <- E. now apply perform_loop_done.
  - contradiction.
  - right. destruct H as (Hbusy & _). split; [exact Hbusy|].
    rewrite <- E. now apply perform_loop_stalled.
Qed.

Ltac exec_goal :=
  cbv beta iota zeta delta
    [run events ends_in ota_update_task read_partitions connect_to_ota_server get_versions
     compare_versions download_update check restart_with_new_image
     _delete_task _http_cleanup call_versions_match
     esp_ota_get_boot_partition esp_ota_get_running_partition
     esp_ota_get_next_update_partition esp_ota_get_last_invalid_partition
     esp_ota_get_partition_description esp_https_ota_begin esp_https_ota_get_img_desc
     esp_https_ota_perform esp_https_ota_get_image_len_read
     esp_https_ota_is_complete_data_received esp_https_ota_finish esp_https_ota_abort
     vTaskDelete_NULL esp_restart vTaskDelay abort assert ESP_ERROR_CHECK deref
     ESP_LOGE ESP_LOGW ESP_LOGI
     bind ret emit halt out_of_fuel when initial_state
     new_app_info running_app_info last_invalid_app invalid_app_info
     is_null performs trace negb andb Bool.eqb].

(** One step along a run in [H] while the goal follows a run with the bound
    [fuel']. *)
Ltac step_both H fuel' :=
  match type of H with
  | context [perform_loop ?p ?f ?h ?s] =>
      let n := fresh "rounds" in
      let E := fresh "Eloop" in
      destruct (perform_loop_cases p h f s) as
        [(n & ?Hrounds & ?Hbusy & ?Hdone & E)|(?Hbusy & E)];
      rewrite E in H;
      [rewrite (perform_loop_done p h fuel' s n); [|assumption|assumption|lia]|]
  | context [match ?x with _ => _ end] =>
      lazymatch x with
      | context [match _ with _ => _ end] => fail
      | _ => revert H; destruct x eqn:?; intro H
      end
  end; exec_in H; exec_goal.

(** X10: the bound of the model only matters while the download is in
    progress: a run that has ended ends in the same way, with the same
    events, under every larger bound. *)
Theorem ended_run_ignores_bound (p : platform) (fuel fuel' : nat)
    (t : terminal) (s : state) :
  run p fuel = Halt t s -> (fuel <= fuel')%nat -> run p fuel' = Halt t s.
Proof.
  intros H Hle. exec_in H. exec_goal.
  repeat step_both H fuel'.
  all: try discriminate H.
  all: exact H.
Qed.

Lemma ended_run_ignores_bound_witness :
  run (update_available ESP_OK) 10 =
    Halt Restarted (final_state (run (update_available ESP_OK) 4)).
Proof.
  apply (ended_run_ignores_bound (update_available ESP_OK) 4 10).
  - vm_compute. reflexivity.
  - lia.
Defined.

Lemma partition_eqb_refl (q : esp_partition_t) : partition_eqb q q = true.
Proof.
  unfold partition_eqb. now rewrite String.eqb_refl, Z.eqb_refl.
Qed.

(** What the platform with another boot partition answers is what the
    platform answers. *)
Ltac same_answers H :=
  cbn [with_boot assertions_enabled boot_partition running_partition
       next_update_partition last_invalid_partition partition_description
       begin_result img_desc_result perform_results image_len_read
       complete_data_received finish_result new_app_info_junk
       running_app_info_junk invalid_app_info_junk] in H.

(** One step along two runs that ask the same questions. *)
Ltac step_pair H1 H2 :=
  match type of H1 with
  | context [perform_loop ?p ?f ?h ?s] =>
      let n := fresh "rounds" in
      let E := fresh "Eloop" in
      destruct (perform_loop_cases p h f s) as
        [(n & ?Hrounds & ?Hbusy & ?Hdone & E)|(?Hbusy & E)];
      rewrite E in H1;
      match type of H2 with
      | context [perform_loop ?p2 f h ?s2] =>
          first [rewrite (perform_loop_done p2 h f s2 n) in H2;
                   [|assumption|assumption|assumption]
                |rewrite (perform_loop_stalled p2 h f s2) in H2; [|assumption]]
      end;
      same_answers H2
  | context [match ?x with _ => _ end] =>
      lazymatch x with
      | context [match _ with _ => _ end] => fail
      | _ => revert H1 H2; destruct x eqn:?; intros H1 H2
      end
  end; exec_in H1; exec_in H2.

(** X11: a boot partition that is not the running one only adds a warning.
    The run ends as it does when the two are the same, and its events are
    the same but for the warning logged after the partitions are read. *)
Theorem boot_mismatch_only_warns (p : platform) (fuel : nat)
    (boot running : esp_partition_t) :
  boot_partition p = Some boot ->
  running_partition p = Some running ->
  partition_eqb boot running = false ->
  ends_in p fuel = ends_in (with_boot p (Some running)) fuel /\
  exists rest,
    events p fuel =
      [ev_log ESP_LOG_INFO "Checking for OTA update (%s)";
       ev_esp_ota_get_boot_partition;
       ev_esp_ota_get_running_partition;
       ev_esp_ota_get_next_update_partition;
       ev_log ESP_LOG_WARN
         "Configured OTA boot partition at offset 0x%08x, but running from offset 0x%08x"]
      ++ rest /\
    events (with_boot p (Some running)) fuel =
      [ev_log ESP_LOG_INFO "Checking for OTA update (%s)";
       ev_esp_ota_get_boot_partition;
       ev_esp_ota_get_running_partition;
       ev_esp_ota_get_next_update_partition]
      ++ rest.
Proof.
  intros Hb Hr Hne.
  unfold events, ends_in.
  remember (run p fuel) as r1 eqn:H1.
  remember (run (with_boot p (Some running)) fuel) as r2 eqn:H2.
  exec_in H1. exec_in H2. same_answers H2.
  rewrite Hb, Hr in H1. rewrite Hr in H2.
  cbv beta iota delta [ptr_eqb] in H1, H2.
  rewrite Hne in H1. rewrite (partition_eqb_refl running) in H2.
  exec_in H1. exec_in H2.
  repeat step_pair H1 H2.
  all: subst r1 r2.
  all: cbv beta iota zeta delta [final_state outcome trace performs].
  all: split; [reflexivity|]; eexists; split; cbn [app]; reflexivity.
Qed.

Lemma boot_mismatch_only_warns_witness :
  ends_in booted_elsewhere 10 = ends_in (with_boot booted_elsewhere (Some factory)) 10 /\
  exists rest,
    events booted_elsewhere 10 =
      [ev_log ESP_LOG_INFO "Checking for OTA update (%s)";
       ev_esp_ota_get_boot_partition;
       ev_esp_ota_get_running_partition;
       ev_esp_ota_get_next_update_partition;
       ev_log ESP_LOG_WARN
         "Configured OTA boot partition at offset 0x%08x, but running from offset 0x%08x"]
      ++ rest /\
    events (with_boot booted_elsewhere (Some factory)) 10 =
      [ev_log ESP_LOG_INFO "Checking for OTA update (%s)";
       ev_esp_ota_get_boot_partition;
       ev_esp_ota_get_running_partition;
       ev_esp_ota_get_next_update_partition]
      ++ rest.
Proof.
  apply (boot_mismatch_only_warns booted_elsewhere 10 ota_1 factory); reflexivity.
Defined.

(** X12: the task loads through the boot and running partition pointers
    without testing them.  When the running partition pointer is NULL, or
    the boot partition pointer is NULL while the running one is not, the run
    ends in a panic right after the partitions are read, before the session
    is opened. *)
Theorem null_partition_pointer_panics (p : platform) (fuel : nat) :
  running_partition p = None \/
  (boot_partition p = None /\ running_partition p <> None) ->
  ends_in p fuel = Some Panicked /\
  events p fuel =
    [ev_log ESP_LOG_INFO "Checking for OTA update (%s)";
     ev_esp_ota_get_boot_partition;
     ev_esp_ota_get_running_partition;
     ev_esp_ota_get_next_update_partition;
     ev_null_dereference].
Proof.
  intros Hnull.
  destruct (boot_partition p) as [b|] eqn:Hb, (running_partition p) as [r|] eqn:Hr.
  all: try (destruct Hnull as [Hnull|[Hnull Hnull']];
            solve [discriminate Hnull | contradiction]).
  all: clear Hnull.
  all: paths_knowing p fuel
         ltac:(fun H => rewrite Hb, Hr in H; cbv beta iota delta [ptr_eqb] in H;
                        exec_in H).
  all: split; reflexivity.
Qed.

Lemma null_partition_pointer_panics_witness :
  ends_in (with_boot (update_available ESP_OK) None) 10 = Some Panicked /\
  events (with_boot (update_available ESP_OK) None) 10 =
    [ev_log ESP_LOG_INFO "Checking for OTA update (%s)";
     ev_esp_ota_get_boot_partition;
     ev_esp_ota_get_running_partition;
     ev_esp_ota_get_next_update_partition;
     ev_null_dereference].
Proof.
  apply (null_partition_pointer_panics (with_boot (update_available ESP_OK) None) 10).
  right. split; [reflexivity|discriminate].
Defined.
End TaskLaws.
